(** * A document-management backend: shallow embedding and verified properties

    The development follows the layout of the Python package: one module per
    source file ([schemas], [models], [config], [crud], [main]) plus [auth],
    whose source is not part of the tree and is modelled from the
    specification.  Python [int] is [Z], [str] is [string], [Optional] is
    [option], the process-wide dictionary of ingestion tasks is a [gmap], a
    database table is the list of its rows in insertion order, and a raised
    [HTTPException] is the [Raise] case of a result type. *)

From Stdlib Require Import ZArith String Ascii DecimalString.
From stdpp Require Import base option list gmap strings.

Local Open Scope Z_scope.

(** ** HTTP results *)

Module http.

Record HTTPException := mkHTTPException { status_code : Z; detail : string }.

Inductive result (A : Type) : Type :=
| Ok (a : A)
| Raise (e : HTTPException).
Global Arguments Ok {A} a.
Global Arguments Raise {A} e.

(** Python's [str(n)] for an [int], as it appears inside f-strings. *)
Definition str (n : Z) : string := NilZero.string_of_int (Z.to_int n).

End http.
Import http.

(** ** schemas.py *)

Module schemas.

Record UserCreate := mkUserCreate {
  uc_username : string;
  uc_email : string;
  uc_password : string;
  uc_role : option string
}.

(** [role: Optional[str] = "viewer"]: the value of the field when the
    request body does not carry it. *)
Definition UserCreate_role_default : option string := Some "viewer".

(** Construction of a [UserCreate] from a request body.  [role_field] is
    [None] when the body has no [role] member, [Some None] when it is JSON
    [null] and [Some (Some s)] when it is the string [s]. *)
Definition parse_UserCreate (username email password : string)
    (role_field : option (option string)) : UserCreate :=
  {| uc_username := username; uc_email := email; uc_password := password;
     uc_role := default UserCreate_role_default role_field |}.

Record User := mkUser {
  username : string;
  email : string;
  id : Z;
  is_active : bool;
  role : string
}.

Record DocumentCreate := mkDocumentCreate { dc_title : string }.

Record UserRoleUpdate := mkUserRoleUpdate { ru_role : string }.

Record IngestionTask := mkIngestionTask {
  document_id : Z;
  status : string;
  message : option string
}.

(** [IngestionTask(document_id=d, status=s)]: [message] takes its default. *)
Definition IngestionTask_new (d : Z) (s : string) : IngestionTask :=
  {| document_id := d; status := s; message := None |}.

End schemas.

(** ** config.py *)

Module config.

Record Settings := mkSettings {
  secret_key : string;
  algorithm : string;
  access_token_expire_minutes : Z;
  documents_upload_path : string
}.

Definition settings : Settings :=
  {| secret_key := "your-super-secret-key";
     algorithm := "HS256";
     access_token_expire_minutes := 30;
     documents_upload_path := "uploaded_documents" |}.

End config.

(** ** auth.py

    The module is imported by [crud.py], [main.py] and the tests but its
    source is not in the tree; the definitions below follow the
    specification of the Credential Service. *)

Module auth.

Section Passwords.

(** The salted one-way transform of the Credential Service, applied to a
    salt and a password. *)
Variable digest : string → string → string.

Record PasswordHash := mkPasswordHash { ph_salt : string; ph_digest : string }.

(** Modelled from the spec: the body of [get_password_hash] (the spec's
    [hash]) is missing.  The hash keeps the salt next to the transform of
    the password under that salt; the salt drawn by a call is an explicit
    argument, so equal passwords may have different hashes. *)
Definition get_password_hash (salt password : string) : PasswordHash :=
  {| ph_salt := salt; ph_digest := digest salt password |}.



End Passwords.

Section Tokens.

Record Payload := mkPayload { sub : string; exp : Z }.

(** The keyed signature of a payload under a secret. *)
Variable sign : string → Payload → string.

Record Token := mkToken { payload : Payload; signature : string }.

Inductive token_failure := InvalidToken | ExpiredToken.

(** Modelled from the spec: the body of [create_access_token] (the spec's
    [issue_token]) is missing.  The token embeds the subject and the
    absolute expiry [now + ttl] and is signed over the full payload.
    Times and durations are whole seconds. *)
Definition create_access_token (secret : string) (now : Z) (subject : string) (ttl : Z) : Token :=
  let p := {| sub := subject; exp := now + ttl |} in
  {| payload := p; signature := sign secret p |}.

(** Modelled from the spec: the body of [verify_token] is missing.  It
    fails with [InvalidToken] when the signature does not verify, with
    [ExpiredToken] when the current time exceeds the embedded expiry,
    and otherwise returns the embedded subject. *)
Definition verify_token (secret : string) (now : Z) (token : Token) : token_failure + string :=
  if negb (String.eqb (signature token) (sign secret (payload token))) then inl InvalidToken
  else if exp (payload token) <? now then inl ExpiredToken
  else inr (sub (payload token)).

End Tokens.

End auth.

(** ** models.py *)

Module models.

Record User := mkUser {
  id : Z;
  username : string;
  hashed_password : auth.PasswordHash;
  email : string;
  is_active : bool;
  role : string
}.

(** [Column(Boolean, default=True)] and [Column(String, default="viewer")]:
    the value a row takes when the attribute is [None] at insertion. *)
Definition User_is_active_default : bool := true.
Definition User_role_default : string := "viewer".

(** [doc_id] is the [id] column of [documents]. *)
Record Document := mkDocument {
  doc_id : Z;
  title : string;
  filename : string;
  upload_time : Z;
  owner_id : option Z
}.

End models.

(** ** crud.py

    A [Session] holds the two tables, each as the list of its rows in
    insertion order, and the two primary-key sequences.  Every function
    commits before it returns, so a function maps a session to the session
    after the commit. *)

Module crud.

Record Session := mkSession {
  users : list models.User;
  users_seq : Z;
  documents : list models.Document;
  documents_seq : Z
}.

Definition empty_session : Session :=
  {| users := []; users_seq := 0; documents := []; documents_seq := 0 |}.

(** [query.first()] *)
Definition first {A : Type} (rows : list A) : option A := head rows.

(** [query.offset(skip).limit(limit).all()]; the database refuses a
    negative offset or limit. *)
Definition offset_limit {A : Type} (skip limit : Z) (rows : list A) : option (list A) :=
  if decide (skip < 0 ∨ limit < 0) then None
  else Some (take (Z.to_nat limit) (drop (Z.to_nat skip) rows)).

Definition with_role (role : string) (u : models.User) : models.User :=
  {| models.id := models.id u; models.username := models.username u;
     models.hashed_password := models.hashed_password u;
     models.email := models.email u; models.is_active := models.is_active u;
     models.role := role |}.

Definition with_owner (owner : option Z) (d : models.Document) : models.Document :=
  {| models.doc_id := models.doc_id d; models.title := models.title d;
     models.filename := models.filename d;
     models.upload_time := models.upload_time d; models.owner_id := owner |}.

Definition get_user (db : Session) (user_id : Z) : option models.User :=
  first (filter (λ u, models.id u = user_id) (users db)).

Definition get_user_by_username (db : Session) (username : string) : option models.User :=
  first (filter (λ u, models.username u = username) (users db)).

Definition get_user_by_email (db : Session) (email : string) : option models.User :=
  first (filter (λ u, models.email u = email) (users db)).

Definition get_users (db : Session) (skip limit : Z) : option (list models.User) :=
  offset_limit skip limit (users db).

(** The [unique=True] columns of [users]: a row that repeats a username or
    an email makes the commit fail. *)
Definition violates_unique (db : Session) (row : models.User) : Prop :=
  Exists (λ u, models.username u = models.username row ∨ models.email u = models.email row)
         (users db).

#[global] Instance violates_unique_dec db row : Decision (violates_unique db row).
Proof. unfold violates_unique. apply _. Defined.

Section WithHash.

(** [auth.get_password_hash] draws a salt; here the salt is an argument. *)
Variable digest : string → string → string.

(** [None] is the integrity error of a failed commit. *)
Definition create_user (salt : string) (db : Session) (user : schemas.UserCreate)
    : option (models.User * Session) :=
  let hashed_password := auth.get_password_hash digest salt (schemas.uc_password user) in
  let db_user :=
    {| models.id := users_seq db + 1;
       models.username := schemas.uc_username user;
       models.hashed_password := hashed_password;
       models.email := schemas.uc_email user;
       models.is_active := models.User_is_active_default;
       models.role := default models.User_role_default (schemas.uc_role user) |} in
  if decide (violates_unique db db_user) then None
  else Some (db_user,
             {| users := users db ++ [db_user]; users_seq := users_seq db + 1;
                documents := documents db; documents_seq := documents_seq db |}).

End WithHash.

Definition update_user_role (db : Session) (user_id : Z) (role : string)
    : option models.User * Session :=
  match get_user db user_id with
  | Some db_user =>
      (Some (with_role role db_user),
       {| users := (λ u, if decide (models.id u = user_id) then with_role role u else u)
                     <$> users db;
          users_seq := users_seq db;
          documents := documents db; documents_seq := documents_seq db |})
  | None => (None, db)
  end.

(** [relationship("Document", back_populates="owner")] has no delete
    cascade: deleting the owner clears [owner_id] of the owned rows. *)
Definition delete_user (db : Session) (user_id : Z) : option models.User * Session :=
  match get_user db user_id with
  | Some db_user =>
      (Some db_user,
       {| users := filter (λ u, models.id u ≠ user_id) (users db);
          users_seq := users_seq db;
          documents := (λ d, if decide (models.owner_id d = Some user_id)
                             then with_owner None d else d) <$> documents db;
          documents_seq := documents_seq db |})
  | None => (None, db)
  end.

Definition get_document (db : Session) (document_id : Z) : option models.Document :=
  first (filter (λ d, models.doc_id d = document_id) (documents db)).

Definition get_documents (db : Session) (skip limit : Z) : option (list models.Document) :=
  offset_limit skip limit (documents db).

Section WithClock.

(** [Column(DateTime, default=datetime.now(UTC))]: the default is the
    instant at which the class body ran. *)
Variable upload_time_default : Z.

(** [owner_id] is a [ForeignKey("users.id")]: the commit fails when no user
    row has that id.  The result is then [None]; the insert has drawn its id
    from the sequence all the same, and the sequence does not go back. *)
Definition create_document (db : Session) (document : schemas.DocumentCreate)
    (owner_id : Z) (filename : string) : option models.Document * Session :=
  let db_document :=
    {| models.doc_id := documents_seq db + 1;
       models.title := schemas.dc_title document;
       models.filename := filename;
       models.upload_time := upload_time_default;
       models.owner_id := Some owner_id |} in
  if decide (is_Some (get_user db owner_id)) then
    (Some db_document,
     {| users := users db; users_seq := users_seq db;
        documents := documents db ++ [db_document];
        documents_seq := documents_seq db + 1 |})
  else
    (None,
     {| users := users db; users_seq := users_seq db;
        documents := documents db;
        documents_seq := documents_seq db + 1 |}).

End WithClock.

Definition delete_document (db : Session) (document_id : Z) : option models.Document * Session :=
  match get_document db document_id with
  | Some db_document =>
      (Some db_document,
       {| users := users db; users_seq := users_seq db;
          documents := filter (λ d, models.doc_id d ≠ document_id) (documents db);
          documents_seq := documents_seq db |})
  | None => (None, db)
  end.

End crud.

(** ** Python built-ins used by main.py *)

Module py.

(** [c in s] for a one-character [c]. *)
Fixpoint contains (c : ascii) (s : string) : bool :=
  match s with
  | EmptyString => false
  | String a rest => if Ascii.eqb a c then true else contains c rest
  end.

(** [s.split(c)] for a one-character separator [c].  The separator used
    by the code is an ASCII character, which never occurs inside the
    encoding of another character, so splitting the encoded string is
    splitting the text. *)
Fixpoint split (c : ascii) (s : string) : list string :=
  match s with
  | EmptyString => [EmptyString]
  | String a rest =>
      if Ascii.eqb a c then EmptyString :: split c rest
      else match split c rest with
           | piece :: pieces => String a piece :: pieces
           | [] => [String a EmptyString]
           end
  end.

(** [s.startswith(c)] and [s.endswith(c)] for a one-character [c]. *)
Definition startswith (c : ascii) (s : string) : bool :=
  match s with
  | String a _ => Ascii.eqb a c
  | EmptyString => false
  end.

Fixpoint endswith (c : ascii) (s : string) : bool :=
  match s with
  | EmptyString => false
  | String a EmptyString => Ascii.eqb a c
  | String _ rest => endswith c rest
  end.

(** [os.path.join(a, b)] on a POSIX system. *)
Definition os_path_join (a b : string) : string :=
  if startswith "/" b then b
  else if bool_decide (a = EmptyString) || endswith "/" a then a +:+ b
  else a +:+ "/" +:+ b.

End py.

(** ** main.py

    A handler receives the value of each of its dependencies as an argument
    ([current_user] is the user resolved by [get_current_active_user]) and
    returns its result together with the state it leaves behind. *)

Module main.

(** The failures of the specification's taxonomy, as the exceptions the
    handlers raise. *)
Definition DuplicateUsername : HTTPException :=
  mkHTTPException 400 "Username already registered".
Definition DuplicateEmail : HTTPException :=
  mkHTTPException 400 "Email already registered".
Definition Forbidden (detail : string) : HTTPException := mkHTTPException 403 detail.
Definition NotFound (detail : string) : HTTPException := mkHTTPException 404 detail.
Definition AlreadyRunning (document_id : Z) (status : string) : HTTPException :=
  mkHTTPException 400
    ("Ingestion for document ID " +:+ str document_id +:+ " is already " +:+ status +:+ ".").
(** An exception that no handler catches. *)
Definition InternalServerError : HTTPException :=
  mkHTTPException 500 "Internal Server Error".

Record UploadFile := mkUploadFile { uf_filename : string; uf_file : string }.
Record FileResponse := mkFileResponse { fr_path : string; fr_filename : string }.

Section Login.

Variable sign : string → auth.Payload → string.

(** The response body [{"access_token": ..., "token_type": ...}]. *)
Record Token := mkToken { access_token : auth.Token; token_type : string }.

(** [user] is the value [authenticate_user] returned ([None] for its
    falsy result), [now] the clock read by [create_access_token];
    [timedelta(minutes=m)] is [60 * m] seconds. *)
Definition login_for_access_token (settings : config.Settings) (now : Z)
    (user : option models.User) : result Token :=
  match user with
  | None => Raise (mkHTTPException 401 "Incorrect username or password")
  | Some user =>
      let access_token_expires := 60 * config.access_token_expire_minutes settings in
      let access_token :=
        auth.create_access_token sign (config.secret_key settings) now
          (models.username user) access_token_expires in
      Ok {| access_token := access_token; token_type := "bearer" |}
  end.

End Login.

Section Users.

Variable digest : string → string → string.

Definition create_user (salt : string) (user : schemas.UserCreate) (db : crud.Session)
    : result models.User * crud.Session :=
  match crud.get_user_by_username db (schemas.uc_username user) with
  | Some _ => (Raise DuplicateUsername, db)
  | None =>
      match crud.get_user_by_email db (schemas.uc_email user) with
      | Some _ => (Raise DuplicateEmail, db)
      | None =>
          match crud.create_user digest salt db user with
          | Some (db_user, db') => (Ok db_user, db')
          | None => (Raise InternalServerError, db)
          end
      end
  end.

End Users.

Definition read_users_me (current_user : schemas.User) : result schemas.User :=
  Ok current_user.

Definition read_users (skip limit : Z) (current_user : schemas.User) (db : crud.Session)
    : result (list models.User) :=
  if decide (schemas.role current_user ≠ "admin")
  then Raise (Forbidden "Not authorized to access user list")
  else match crud.get_users db skip limit with
       | Some users => Ok users
       | None => Raise InternalServerError
       end.

Definition update_user_role (user_id : Z) (role_update : schemas.UserRoleUpdate)
    (current_user : schemas.User) (db : crud.Session) : result models.User * crud.Session :=
  if decide (schemas.role current_user ≠ "admin")
  then (Raise (Forbidden "Not authorized to update user roles"), db)
  else match crud.update_user_role db user_id (schemas.ru_role role_update) with
       | (None, db') => (Raise (NotFound "User not found"), db')
       | (Some db_user, db') => (Ok db_user, db')
       end.

Definition delete_user (user_id : Z) (current_user : schemas.User) (db : crud.Session)
    : result models.User * crud.Session :=
  if decide (schemas.role current_user ≠ "admin")
  then (Raise (Forbidden "Not authorized to delete users"), db)
  else match crud.delete_user db user_id with
       | (None, db') => (Raise (NotFound "User not found"), db')
       | (Some db_user, db') => (Ok db_user, db')
       end.

(** A request that touches the users table. *)
Inductive user_operation :=
| op_register (salt : string) (user : schemas.UserCreate)
| op_update_role (user_id : Z) (role_update : schemas.UserRoleUpdate)
    (current_user : schemas.User)
| op_delete_user (user_id : Z) (current_user : schemas.User).

(** The role string a request carries, if any. *)
Definition supplied_role (o : user_operation) : option string :=
  match o with
  | op_register _ user => schemas.uc_role user
  | op_update_role _ role_update _ => Some (schemas.ru_role role_update)
  | op_delete_user _ _ => None
  end.

Section UserRequests.

Variable digest : string → string → string.

(** The session a request leaves behind. *)
Definition run_user_operation (db : crud.Session) (o : user_operation) : crud.Session :=
  match o with
  | op_register salt user => (create_user digest salt user db).2
  | op_update_role user_id role_update current_user =>
      (update_user_role user_id role_update current_user db).2
  | op_delete_user user_id current_user => (delete_user user_id current_user db).2
  end.

Definition run_user_operations (ops : list user_operation) (db : crud.Session) : crud.Session :=
  foldl run_user_operation db ops.

End UserRequests.

(** [file.filename.split(".")[0] if "." in file.filename else file.filename];
    [None] is the [IndexError] of an empty list. *)
Definition document_title (filename : string) : option string :=
  if py.contains "." filename then py.split "." filename !! 0%nat else Some filename.

Section Documents.

(** The file system of the deployment is outside the program:
    [can_open path] says whether [open(path, "wb")] succeeds there (the
    directory of [path] exists and is writable, [path] is no directory). *)
Variable can_open : string → bool.

Variable upload_time_default : Z.

(** The regular files of the deployment are a finite map from paths to
    contents.  [open] comes first: when it raises, nothing is written and no
    row is recorded; the exception is not caught.  A file that was opened is
    bound to the uploaded bytes, also when the commit of the row then
    fails. *)
Definition create_document (settings : config.Settings) (file : UploadFile)
    (current_user : schemas.User) (db : crud.Session) (files : gmap string string)
    : result models.Document * crud.Session * gmap string string :=
  let file_location :=
    py.os_path_join (config.documents_upload_path settings) (uf_filename file) in
  if can_open file_location then
    let files' := <[file_location := uf_file file]> files in
    match document_title (uf_filename file) with
    | None => (Raise InternalServerError, db, files')
    | Some document_title =>
        match crud.create_document upload_time_default db
                (schemas.mkDocumentCreate document_title)
                (schemas.id current_user) (uf_filename file) with
        | (Some db_document, db') => (Ok db_document, db', files')
        | (None, db') => (Raise InternalServerError, db', files')
        end
    end
  else (Raise InternalServerError, db, files).

End Documents.

Definition read_documents (skip limit : Z) (current_user : schemas.User) (db : crud.Session)
    : result (list models.Document) :=
  match crud.get_documents db skip limit with
  | Some documents => Ok documents
  | None => Raise InternalServerError
  end.

Definition read_document (document_id : Z) (current_user : schemas.User) (db : crud.Session)
    : result models.Document :=
  match crud.get_document db document_id with
  | None => Raise (NotFound "Document not found")
  | Some db_document => Ok db_document
  end.

Definition delete_document (document_id : Z) (current_user : schemas.User) (db : crud.Session)
    : result models.Document * crud.Session :=
  match crud.get_document db document_id with
  | None => (Raise (NotFound "Document not found"), db)
  | Some _ =>
      match crud.delete_document db document_id with
      | (Some deleted_document, db') => (Ok deleted_document, db')
      | (None, db') => (Raise InternalServerError, db')
      end
  end.

Definition download_document (settings : config.Settings) (document_id : Z)
    (current_user : schemas.User) (db : crud.Session) (files : gmap string string)
    : result FileResponse :=
  match crud.get_document db document_id with
  | None => Raise (NotFound "Document not found")
  | Some db_document =>
      let file_path :=
        py.os_path_join (config.documents_upload_path settings) (models.filename db_document) in
      if decide (is_Some (files !! file_path))
      then Ok {| fr_path := file_path; fr_filename := models.filename db_document |}
      else Raise (NotFound "File not found on server")
  end.

(** *** The ingestion tracker

    [ingestion_tasks] is the process-wide dictionary; a function that
    assigns to it returns its new value.  [background_tasks] is the list
    of document ids handed to [add_task], in order. *)

(** [ingestion_tasks[document_id].status = s]; [None] is the [KeyError]
    of a missing key. *)
Definition set_status (document_id : Z) (s : string)
    (ingestion_tasks : gmap Z schemas.IngestionTask) : option (gmap Z schemas.IngestionTask) :=
  task ← ingestion_tasks !! document_id;
  Some (<[document_id :=
            {| schemas.document_id := schemas.document_id task;
               schemas.status := s;
               schemas.message := schemas.message task |}]> ingestion_tasks).

(** [ingestion_tasks[document_id].message = m] *)
Definition set_message (document_id : Z) (m : option string)
    (ingestion_tasks : gmap Z schemas.IngestionTask) : option (gmap Z schemas.IngestionTask) :=
  task ← ingestion_tasks !! document_id;
  Some (<[document_id :=
            {| schemas.document_id := schemas.document_id task;
               schemas.status := schemas.status task;
               schemas.message := m |}]> ingestion_tasks).

(** The background body.  Its result is the history of the dictionary
    during the call: one value per assignment, in order (the delay lies
    between the first and the second).  The empty history is the branch
    that only prints. *)
Definition process_ingestion_task (document_id : Z)
    (ingestion_tasks : gmap Z schemas.IngestionTask)
    : option (list (gmap Z schemas.IngestionTask)) :=
  if decide (is_Some (ingestion_tasks !! document_id)) then
    tasks1 ← set_status document_id "processing" ingestion_tasks;
    tasks2 ← set_status document_id "completed" tasks1;
    tasks3 ← set_message document_id (Some "Ingestion completed successfully.") tasks2;
    Some [tasks1; tasks2; tasks3]
  else Some [].

(** The dictionary once a history has run its course. *)
Definition final (ingestion_tasks : gmap Z schemas.IngestionTask)
    (history : list (gmap Z schemas.IngestionTask)) : gmap Z schemas.IngestionTask :=
  default ingestion_tasks (last history).

Definition trigger_ingestion (document_id : Z) (background_tasks : list Z)
    (current_user : schemas.User) (db : crud.Session)
    (ingestion_tasks : gmap Z schemas.IngestionTask)
    : result schemas.IngestionTask * list Z * gmap Z schemas.IngestionTask :=
  match crud.get_document db document_id with
  | None => (Raise (NotFound "Document not found"), background_tasks, ingestion_tasks)
  | Some _ =>
      let fresh :=
        let ingestion_task := schemas.IngestionTask_new document_id "pending" in
        (Ok ingestion_task, background_tasks ++ [document_id],
         <[document_id := ingestion_task]> ingestion_tasks) in
      match ingestion_tasks !! document_id with
      | Some task =>
          if bool_decide (schemas.status task ∈ ["pending"; "processing"])
          then (Raise (AlreadyRunning document_id (schemas.status task)),
                background_tasks, ingestion_tasks)
          else fresh
      | None => fresh
      end
  end.

Definition get_ingestion_status (current_user : schemas.User)
    (ingestion_tasks : gmap Z schemas.IngestionTask) : gmap Z schemas.IngestionTask :=
  ingestion_tasks.

(** A request or a background execution that touches the tracker. *)
Inductive operation :=
| op_trigger (document_id : Z) (current_user : schemas.User) (db : crud.Session)
| op_run (document_id : Z)
| op_status (current_user : schemas.User).

(** The values the dictionary takes while one operation executes. *)
Definition operation_history (o : operation) (ingestion_tasks : gmap Z schemas.IngestionTask)
    : list (gmap Z schemas.IngestionTask) :=
  match o with
  | op_trigger document_id current_user db =>
      [(trigger_ingestion document_id [] current_user db ingestion_tasks).2]
  | op_run document_id => default [] (process_ingestion_task document_id ingestion_tasks)
  | op_status current_user => [get_ingestion_status current_user ingestion_tasks]
  end.

(** The values the dictionary takes while a sequence of operations runs,
    each operation starting where the previous one stopped. *)
Fixpoint history (ops : list operation) (ingestion_tasks : gmap Z schemas.IngestionTask)
    : list (gmap Z schemas.IngestionTask) :=
  match ops with
  | [] => []
  | o :: ops' =>
      let h := operation_history o ingestion_tasks in
      h ++ history ops' (final ingestion_tasks h)
  end.

End main.

(** ** Sample data *)

Module sample.

Definition alice : schemas.User :=
  {| schemas.username := "alice"; schemas.email := "alice@example.com";
     schemas.id := 1; schemas.is_active := true; schemas.role := "viewer" |}.

Definition root : schemas.User :=
  {| schemas.username := "root"; schemas.email := "root@example.com";
     schemas.id := 2; schemas.is_active := true; schemas.role := "admin" |}.

Definition report : models.Document :=
  {| models.doc_id := 1; models.title := "report"; models.filename := "report.pdf";
     models.upload_time := 0; models.owner_id := Some 2 |}.

(** A session with the single document [report] and no user rows. *)
Definition one_document : crud.Session :=
  {| crud.users := []; crud.users_seq := 0;
     crud.documents := [report]; crud.documents_seq := 1 |}.

Definition task (s : string) : schemas.IngestionTask :=
  {| schemas.document_id := 1; schemas.status := s; schemas.message := None |}.

(** A stand-in for the one-way transform: injective in the password. *)
Definition digest (salt password : string) : string := salt +:+ password.

(** A stand-in for the keyed signature: it spells out the key and the
    payload. *)
Definition sign (secret : string) (p : auth.Payload) : string :=
  secret +:+ ":" +:+ auth.sub p +:+ ":" +:+ str (auth.exp p).

Definition bob_row : models.User :=
  {| models.id := 1; models.username := "bob";
     models.hashed_password := auth.get_password_hash digest "na" "hunter2";
     models.email := "bob@example.com"; models.is_active := true;
     models.role := "viewer" |}.

(** A session with the single user [bob_row] and no document rows. *)
Definition one_user : crud.Session :=
  {| crud.users := [bob_row]; crud.users_seq := 1;
     crud.documents := []; crud.documents_seq := 0 |}.



(** The user rows of [alice] and [root]. *)
Definition alice_row : models.User :=
  {| models.id := 1; models.username := "alice";
     models.hashed_password := auth.get_password_hash digest "na" "wonderland";
     models.email := "alice@example.com"; models.is_active := true;
     models.role := "viewer" |}.

Definition root_row : models.User :=
  {| models.id := 2; models.username := "root";
     models.hashed_password := auth.get_password_hash digest "cl" "toor";
     models.email := "root@example.com"; models.is_active := true;
     models.role := "admin" |}.

(** A session with the users [alice] and [root] and the document [report]
    of [root]. *)
Definition office : crud.Session :=
  {| crud.users := [alice_row; root_row]; crud.users_seq := 2;
     crud.documents := [report]; crud.documents_seq := 1 |}.

(** A deployment in which the upload directory is the only directory that
    can be written to: a path opens when it is the directory, a "/" and a
    plain file name. *)
Definition plain_name (name : string) : bool :=
  negb (py.contains "/" name)
  && negb (bool_decide (name = EmptyString))
  && negb (bool_decide (name = "."))
  && negb (bool_decide (name = "..")).

Definition can_open (path : string) : bool :=
  match py.split "/" path with
  | [dir; name] => bool_decide (dir = "uploaded_documents") && plain_name name
  | _ => false
  end.

End sample.

(** ** Notions used by the statements *)

(** The entry a successful trigger inserts and returns. *)
Definition pending_task (document_id : Z) : schemas.IngestionTask :=
  schemas.IngestionTask_new document_id "pending".

Definition with_status (s : string) (task : schemas.IngestionTask) : schemas.IngestionTask :=
  {| schemas.document_id := schemas.document_id task; schemas.status := s;
     schemas.message := schemas.message task |}.

(** The entry the background body leaves behind. *)
Definition completed_task (task : schemas.IngestionTask) : schemas.IngestionTask :=
  {| schemas.document_id := schemas.document_id task; schemas.status := "completed";
     schemas.message := Some "Ingestion completed successfully." |}.

(** The statuses a task of the tracker can show. *)
Definition live_status (s : string) : Prop :=
  s ∈ ["pending"; "processing"; "completed"].

Definition tracker_inv (tasks : gmap Z schemas.IngestionTask) : Prop :=
  ∀ document_id task, tasks !! document_id = Some task → live_status (schemas.status task).

(** The roles listed next to the [role] column. *)
Definition enumerated_role (r : string) : Prop := r ∈ ["admin"; "editor"; "viewer"].

Definition roles_enumerated (db : crud.Session) : Prop :=
  ∀ u, u ∈ crud.users db → enumerated_role (models.role u).

(** Entries are filed under their own document id. *)
Definition tracker_keyed (tasks : gmap Z schemas.IngestionTask) : Prop :=
  ∀ document_id task, tasks !! document_id = Some task → schemas.document_id task = document_id.

(** The keys a table must keep apart: primary keys, which never exceed the
    sequence they are drawn from, usernames and emails. *)
Definition users_wf (db : crud.Session) : Prop :=
  NoDup (models.id <$> crud.users db)
  ∧ NoDup (models.username <$> crud.users db)
  ∧ NoDup (models.email <$> crud.users db)
  ∧ Forall (λ u, models.id u ≤ crud.users_seq db) (crud.users db).

Definition documents_wf (db : crud.Session) : Prop :=
  NoDup (models.doc_id <$> crud.documents db)
  ∧ Forall (λ d, models.doc_id d ≤ crud.documents_seq db) (crud.documents db).

Definition session_wf (db : crud.Session) : Prop := users_wf db ∧ documents_wf db.

(** A request that writes to the session or to the upload directory. *)
Inductive session_request :=
| req_user (o : main.user_operation)
| req_upload (file : main.UploadFile) (current_user : schemas.User)
| req_delete_document (document_id : Z) (current_user : schemas.User).

Definition run_session_request (digest : string → string → string)
    (can_open : string → bool) (upload_time_default : Z) (settings : config.Settings)
    (st : crud.Session * gmap string string) (r : session_request)
    : crud.Session * gmap string string :=
  match r with
  | req_user o => (main.run_user_operation digest st.1 o, st.2)
  | req_upload file current_user =>
      let out :=
        main.create_document can_open upload_time_default settings file current_user
          st.1 st.2 in
      (out.1.2, out.2)
  | req_delete_document document_id current_user =>
      ((main.delete_document document_id current_user st.1).2, st.2)
  end.

(** * Properties *)

(** ** The ingestion tracker *)

Section ingestion_tracker.

Implicit Types (tasks : gmap Z schemas.IngestionTask) (task : schemas.IngestionTask).
Implicit Types (document_id : Z) (db : crud.Session) (current_user : schemas.User).

Lemma set_status_Some document_id s tasks task :
  tasks !! document_id = Some task →
  main.set_status document_id s tasks = Some (<[document_id := with_status s task]> tasks).
Proof. intros Hl. unfold main.set_status. by rewrite Hl. Qed.

Lemma set_message_Some document_id m tasks task :
  tasks !! document_id = Some task →
  main.set_message document_id m tasks =
    Some (<[document_id :=
              {| schemas.document_id := schemas.document_id task;
                 schemas.status := schemas.status task; schemas.message := m |}]> tasks).
Proof. intros Hl. unfold main.set_message. by rewrite Hl. Qed.

Lemma process_ingestion_task_present document_id tasks task :
  tasks !! document_id = Some task →
  main.process_ingestion_task document_id tasks =
    Some [ <[document_id := with_status "processing" task]> tasks;
           <[document_id := with_status "completed" task]> tasks;
           <[document_id := completed_task task]> tasks ].
Proof.
  intros Hl. unfold main.process_ingestion_task.
  rewrite decide_True by eauto.
  rewrite (set_status_Some _ _ _ _ Hl). simpl.
  erewrite set_status_Some by apply lookup_insert_eq. simpl.
  erewrite set_message_Some by apply lookup_insert_eq. simpl.
  by rewrite !insert_insert_eq.
Qed.

Lemma process_ingestion_task_absent document_id tasks :
  tasks !! document_id = None → main.process_ingestion_task document_id tasks = Some [].
Proof.
  intros Hl. unfold main.process_ingestion_task.
  rewrite decide_False; [done|]. rewrite Hl. by intros [? ?].
Qed.

Lemma live_status_not_failed s : live_status s → s ≠ "failed".
Proof.
  unfold live_status. intros Hs ->.
  rewrite !elem_of_cons, elem_of_nil in Hs. by destruct Hs as [?|[?|[?|[]]]].
Qed.

Lemma tracker_inv_empty : tracker_inv ∅.
Proof. intros d t. by rewrite lookup_empty. Qed.

Lemma tracker_inv_insert document_id task tasks :
  live_status (schemas.status task) → tracker_inv tasks →
  tracker_inv (<[document_id := task]> tasks).
Proof.
  intros Hs Hinv d t. rewrite lookup_insert. case_decide; [|by apply Hinv].
  by intros [= <-].
Qed.

(** Each single assignment of the background body keeps the invariant, so
    it holds between any two assignments as well. *)
Lemma tracker_inv_set_status document_id s tasks tasks' :
  live_status s → main.set_status document_id s tasks = Some tasks' →
  tracker_inv tasks → tracker_inv tasks'.
Proof.
  intros Hs. unfold main.set_status.
  destruct (tasks !! document_id) as [task|]; simpl; [|done].
  intros [= <-] Hinv. by apply tracker_inv_insert.
Qed.

Lemma tracker_inv_set_message document_id m tasks tasks' :
  main.set_message document_id m tasks = Some tasks' →
  tracker_inv tasks → tracker_inv tasks'.
Proof.
  unfold main.set_message.
  destruct (tasks !! document_id) as [task|] eqn:Hl; simpl; [|done].
  intros [= <-] Hinv. apply tracker_inv_insert; [|done]. simpl. by apply (Hinv document_id).
Qed.

Lemma tracker_inv_trigger document_id bg current_user db tasks :
  tracker_inv tasks →
  tracker_inv (main.trigger_ingestion document_id bg current_user db tasks).2.
Proof.
  intros Hinv. unfold main.trigger_ingestion.
  destruct (crud.get_document db document_id); [|done].
  assert (tracker_inv (<[document_id := pending_task document_id]> tasks)) as Hfresh.
  { apply tracker_inv_insert; [|done]. unfold live_status. simpl. set_solver. }
  destruct (tasks !! document_id) as [task|]; [|done].
  by case_bool_decide.
Qed.

Lemma tracker_inv_run document_id tasks :
  tracker_inv tasks →
  Forall tracker_inv (default [] (main.process_ingestion_task document_id tasks)).
Proof.
  intros Hinv. destruct (tasks !! document_id) as [task|] eqn:Hl.
  - rewrite (process_ingestion_task_present _ _ _ Hl). simpl.
    repeat apply Forall_cons_2; try apply Forall_nil_2;
      (apply tracker_inv_insert; [unfold live_status; simpl; set_solver | done]).
  - rewrite (process_ingestion_task_absent _ _ Hl). by apply Forall_nil_2.
Qed.

Lemma tracker_inv_operation o tasks :
  tracker_inv tasks → Forall tracker_inv (main.operation_history o tasks).
Proof.
  intros Hinv. destruct o as [d u db|d|u]; simpl.
  - apply Forall_singleton. by apply tracker_inv_trigger.
  - by apply tracker_inv_run.
  - by apply Forall_singleton.
Qed.

Lemma tracker_inv_final tasks h :
  tracker_inv tasks → Forall tracker_inv h → tracker_inv (main.final tasks h).
Proof.
  intros Hinv Hh. unfold main.final.
  destruct (last h) as [s|] eqn:Hlast; simpl; [|done].
  rewrite Forall_forall in Hh. apply Hh. by apply last_Some_elem_of.
Qed.

Lemma tracker_inv_history ops tasks :
  tracker_inv tasks → Forall tracker_inv (main.history ops tasks).
Proof.
  revert tasks. induction ops as [|o ops IH]; intros tasks Hinv; simpl.
  - apply Forall_nil_2.
  - pose proof (tracker_inv_operation o tasks Hinv) as Ho.
    apply Forall_app; split; [done|].
    apply IH. by apply tracker_inv_final.
Qed.

End ingestion_tracker.

Section ingestion_claims.

Implicit Types (tasks : gmap Z schemas.IngestionTask) (task : schemas.IngestionTask).
Implicit Types (document_id : Z) (db : crud.Session) (current_user : schemas.User).

(** C1, as stated, fails: for a document id that no document row carries the
    mapping has no entry, yet [trigger_ingestion] inserts nothing and raises
    the 404 "Document not found". *)
Lemma trigger_ingestion_unknown_document :
  (∅ : gmap Z schemas.IngestionTask) !! 7 = None ∧
  main.trigger_ingestion 7 [] sample.alice crud.empty_session ∅ =
    (Raise (main.NotFound "Document not found"), [], ∅).
Proof. split; [apply lookup_empty | reflexivity]. Qed.

(** C1, amended: for a document id without a document row, trigger fails with
    NotFound and leaves the mapping unchanged.  For the id of an existing
    document: if the mapping has an entry for it with status [pending] or
    [processing], trigger fails with AlreadyRunning and the mapping is
    unchanged; if it has no entry, or an entry with any other status, trigger
    inserts a new [pending] entry for the id, schedules the background
    execution and returns that entry. *)
Theorem trigger_ingestion_spec document_id bg current_user db tasks :
  (crud.get_document db document_id = None →
     main.trigger_ingestion document_id bg current_user db tasks =
       (Raise (main.NotFound "Document not found"), bg, tasks))
  ∧ (∀ doc, crud.get_document db document_id = Some doc →
       (∀ task, tasks !! document_id = Some task →
          schemas.status task = "pending" ∨ schemas.status task = "processing" →
          main.trigger_ingestion document_id bg current_user db tasks =
            (Raise (main.AlreadyRunning document_id (schemas.status task)), bg, tasks))
       ∧ ((∀ task, tasks !! document_id = Some task →
             schemas.status task ≠ "pending" ∧ schemas.status task ≠ "processing") →
          main.trigger_ingestion document_id bg current_user db tasks =
            (Ok (pending_task document_id), bg ++ [document_id],
             <[document_id := pending_task document_id]> tasks)
          ∧ (<[document_id := pending_task document_id]> tasks) !! document_id =
              Some (pending_task document_id)
          ∧ schemas.status (pending_task document_id) = "pending")).
Proof.
  unfold main.trigger_ingestion. split.
  - by intros ->.
  - intros doc ->. split.
    + intros task -> Hs. rewrite bool_decide_eq_true_2; [done|].
      rewrite !elem_of_cons. tauto.
    + intros Hother. split_and!; [|apply lookup_insert_eq|done].
      destruct (tasks !! document_id) as [task|]; [|done].
      destruct (Hother task eq_refl) as [Hp Hq].
      rewrite bool_decide_eq_false_2; [done|].
      rewrite !elem_of_cons, elem_of_nil. tauto.
Qed.

Lemma trigger_ingestion_spec_witness :
  main.trigger_ingestion 7 [] sample.alice sample.one_document {[1 := sample.task "pending"]} =
    (Raise (main.NotFound "Document not found"), [], {[1 := sample.task "pending"]})
  ∧ main.trigger_ingestion 1 [] sample.alice sample.one_document {[1 := sample.task "processing"]} =
      (Raise (main.AlreadyRunning 1 "processing"), [], {[1 := sample.task "processing"]})
  ∧ main.trigger_ingestion 1 [] sample.alice sample.one_document {[1 := sample.task "failed"]} =
      (Ok (pending_task 1), [1], <[1 := pending_task 1]> {[1 := sample.task "failed"]}).
Proof.
  split_and!.
  - apply (proj1 (trigger_ingestion_spec 7 [] sample.alice sample.one_document _)).
    reflexivity.
  - apply (proj1 (proj2 (trigger_ingestion_spec 1 [] sample.alice sample.one_document
                           {[1 := sample.task "processing"]}) sample.report eq_refl)
             (sample.task "processing")).
    + apply lookup_singleton_eq.
    + right. reflexivity.
  - apply (proj2 (proj2 (trigger_ingestion_spec 1 [] sample.alice sample.one_document
                           {[1 := sample.task "failed"]}) sample.report eq_refl)).
    intros task. rewrite lookup_singleton_eq. intros [= <-]. simpl. split; discriminate.
Defined.

(** C2: when the id is in the mapping, the background body first sets the
    entry's status to [processing] and finally leaves it [completed] with the
    message "Ingestion completed successfully.", touching no other entry and
    raising nothing; when the id is absent it assigns nothing and raises
    nothing, so the mapping is unchanged. *)
Theorem process_ingestion_task_spec document_id tasks :
  (∀ task, tasks !! document_id = Some task →
     main.process_ingestion_task document_id tasks =
       Some [ <[document_id := with_status "processing" task]> tasks;
              <[document_id := with_status "completed" task]> tasks;
              <[document_id := completed_task task]> tasks ]
     ∧ main.final tasks [ <[document_id := with_status "processing" task]> tasks;
                          <[document_id := with_status "completed" task]> tasks;
                          <[document_id := completed_task task]> tasks ] !! document_id =
         Some {| schemas.document_id := schemas.document_id task;
                 schemas.status := "completed";
                 schemas.message := Some "Ingestion completed successfully." |}
     ∧ ∀ other, other ≠ document_id →
         main.final tasks [ <[document_id := with_status "processing" task]> tasks;
                            <[document_id := with_status "completed" task]> tasks;
                            <[document_id := completed_task task]> tasks ] !! other =
           tasks !! other)
  ∧ (tasks !! document_id = None →
       main.process_ingestion_task document_id tasks = Some []
       ∧ main.final tasks [] = tasks).
Proof.
  split.
  - intros task Hl. split_and!.
    + by apply process_ingestion_task_present.
    + unfold main.final. simpl. apply lookup_insert_eq.
    + intros other Hne. unfold main.final. simpl. by rewrite lookup_insert_ne.
  - intros Hl. split; [by apply process_ingestion_task_absent | done].
Qed.

Lemma process_ingestion_task_spec_witness :
  main.process_ingestion_task 1 {[1 := sample.task "pending"]} =
    Some [ {[1 := sample.task "processing"]};
           {[1 := sample.task "completed"]};
           {[1 := completed_task (sample.task "pending")]} ]
  ∧ main.process_ingestion_task 2 {[1 := sample.task "pending"]} = Some [].
Proof.
  split.
  - pose proof (proj1 (proj1 (process_ingestion_task_spec 1 {[1 := sample.task "pending"]})
                         (sample.task "pending") (lookup_singleton_eq _ _))) as H.
    rewrite H. by rewrite !insert_singleton_eq.
  - apply (proj2 (process_ingestion_task_spec 2 {[1 := sample.task "pending"]})).
    reflexivity.
Defined.

(** C9: starting from the empty mapping, every value the mapping takes during
    any sequence of trigger, background-run and status-query operations holds
    only tasks whose status is [pending], [processing] or [completed]; none is
    ever [failed]. *)
Theorem failed_status_unreachable ops tasks document_id task :
  tasks ∈ ∅ :: main.history ops ∅ →
  tasks !! document_id = Some task →
  schemas.status task ≠ "failed"
  ∧ schemas.status task ∈ ["pending"; "processing"; "completed"].
Proof.
  intros Hin Hl.
  assert (tracker_inv tasks) as Hinv.
  { apply elem_of_cons in Hin as [->|Hin]; [apply tracker_inv_empty|].
    pose proof (tracker_inv_history ops ∅ tracker_inv_empty) as Hall.
    rewrite Forall_forall in Hall. by apply Hall. }
  split; [apply live_status_not_failed|]; by apply (Hinv document_id).
Qed.

Lemma failed_status_unreachable_witness :
  schemas.status (completed_task (pending_task 1)) ≠ "failed"
  ∧ schemas.status (completed_task (pending_task 1)) ∈ ["pending"; "processing"; "completed"].
Proof.
  apply (failed_status_unreachable
           [main.op_trigger 1 sample.alice sample.one_document; main.op_run 1;
            main.op_status sample.root]
           {[1 := completed_task (pending_task 1)]} 1).
  - apply list_elem_of_lookup. exists 4%nat. vm_compute. reflexivity.
  - apply lookup_singleton_eq.
Defined.

End ingestion_claims.

(** ** Queries over a table *)

Section tables.

Context {A : Type} (P : A → Prop) `{!∀ x, Decision (P x)}.

Lemma first_filter_None (rows : list A) :
  crud.first (filter P rows) = None ↔ Forall (λ x, ¬ P x) rows.
Proof.
  unfold crud.first. induction rows as [|x rows IH]; simpl.
  - split; [constructor | done].
  - rewrite filter_cons. destruct (decide (P x)) as [Hx|Hx]; simpl.
    + split; [done|]. intros Hall. by apply Forall_cons_1 in Hall as [? _].
    + rewrite IH. split; [by constructor | by intros [_ ?]%Forall_cons_1].
Qed.

Lemma first_filter_Some (rows : list A) x :
  crud.first (filter P rows) = Some x → x ∈ rows ∧ P x.
Proof.
  unfold crud.first. intros Hh. apply head_Some_elem_of in Hh.
  by apply list_elem_of_filter in Hh as [? ?].
Qed.

Lemma first_filter_is_Some (rows : list A) :
  (∃ x, x ∈ rows ∧ P x) → is_Some (crud.first (filter P rows)).
Proof.
  intros (x & Hin & Hx). destruct (crud.first (filter P rows)) eqn:Hf; [eauto|].
  apply first_filter_None in Hf. rewrite Forall_forall in Hf. by destruct (Hf x Hin).
Qed.

Lemma first_filter_fmap (f : A → A) (rows : list A) :
  (∀ x, P (f x) ↔ P x) →
  crud.first (filter P (f <$> rows)) = f <$> crud.first (filter P rows).
Proof.
  intros Hf. unfold crud.first. induction rows as [|x rows IH]; [done|].
  rewrite fmap_cons, !filter_cons.
  destruct (decide (P x)) as [Hx|Hx].
  - rewrite decide_True by by apply Hf. done.
  - rewrite decide_False by by rewrite Hf. done.
Qed.

Lemma first_filter_excluded (rows : list A) :
  crud.first (filter P (filter (λ x, ¬ P x) rows)) = None.
Proof.
  apply first_filter_None. apply Forall_forall.
  intros x Hin. by apply list_elem_of_filter in Hin as [? _].
Qed.

End tables.

(** ** User administration *)

Section user_administration.

Implicit Types (db : crud.Session) (current_user : schemas.User) (user_id : Z).

Lemma get_user_after_update db user_id role db_user :
  crud.get_user db user_id = Some db_user →
  crud.get_user (crud.update_user_role db user_id role).2 user_id =
    Some (crud.with_role role db_user).
Proof.
  intros Hg. unfold crud.update_user_role. rewrite Hg. unfold crud.get_user in *. simpl.
  rewrite (first_filter_fmap (λ u, models.id u = user_id)).
  - rewrite Hg. simpl. rewrite decide_True; [done|].
    by apply first_filter_Some in Hg as [_ ?].
  - intros u. by destruct (decide (models.id u = user_id)).
Qed.

Lemma get_user_after_delete db user_id :
  crud.get_user (crud.delete_user db user_id).2 user_id = None.
Proof.
  unfold crud.delete_user. destruct (crud.get_user db user_id) eqn:Hg; [|done].
  unfold crud.get_user. simpl.
  apply (first_filter_excluded (λ u, models.id u = user_id)).
Qed.

(** C3: a caller whose role is not [admin] gets Forbidden from role update
    and from user deletion, whether or not the target exists, and nothing is
    changed; an [admin] caller gets NotFound for a target id without a user
    record; for an existing target an [admin] caller gets the user with the
    new role from role update, which is then the stored record, and the
    removed user from deletion, after which the id has no record. *)
Theorem user_role_update_and_delete_spec user_id role_update current_user db :
  (schemas.role current_user ≠ "admin" →
     main.update_user_role user_id role_update current_user db =
       (Raise (main.Forbidden "Not authorized to update user roles"), db)
     ∧ main.delete_user user_id current_user db =
         (Raise (main.Forbidden "Not authorized to delete users"), db))
  ∧ (schemas.role current_user = "admin" → crud.get_user db user_id = None →
       main.update_user_role user_id role_update current_user db =
         (Raise (main.NotFound "User not found"), db)
       ∧ main.delete_user user_id current_user db =
           (Raise (main.NotFound "User not found"), db))
  ∧ (schemas.role current_user = "admin" →
     ∀ db_user, crud.get_user db user_id = Some db_user →
       (main.update_user_role user_id role_update current_user db).1 =
         Ok (crud.with_role (schemas.ru_role role_update) db_user)
       ∧ models.role (crud.with_role (schemas.ru_role role_update) db_user) =
           schemas.ru_role role_update
       ∧ crud.get_user (main.update_user_role user_id role_update current_user db).2 user_id =
           Some (crud.with_role (schemas.ru_role role_update) db_user)
       ∧ (main.delete_user user_id current_user db).1 = Ok db_user
       ∧ crud.get_user (main.delete_user user_id current_user db).2 user_id = None).
Proof.
  unfold main.update_user_role, main.delete_user. split_and!.
  - intros Hrole. by rewrite !decide_True.
  - intros Hrole Hg. rewrite !decide_False by (by intros []).
    unfold crud.update_user_role, crud.delete_user. by rewrite Hg.
  - intros Hrole db_user Hg. rewrite !decide_False by (by intros []).
    pose proof (get_user_after_update db user_id (schemas.ru_role role_update) db_user Hg) as Hup.
    pose proof (get_user_after_delete db user_id) as Hdel.
    unfold crud.update_user_role, crud.delete_user in *. rewrite Hg in *. simpl in *.
    by split_and!.
Qed.

Lemma user_role_update_and_delete_spec_witness :
  main.update_user_role 1 (schemas.mkUserRoleUpdate "editor") sample.alice sample.one_user =
    (Raise (main.Forbidden "Not authorized to update user roles"), sample.one_user)
  ∧ main.delete_user 9 sample.root sample.one_user =
      (Raise (main.NotFound "User not found"), sample.one_user)
  ∧ (main.update_user_role 1 (schemas.mkUserRoleUpdate "editor") sample.root sample.one_user).1 =
      Ok (crud.with_role "editor" sample.bob_row)
  ∧ (main.delete_user 1 sample.root sample.one_user).1 = Ok sample.bob_row.
Proof.
  split_and!.
  - apply (proj1 (user_role_update_and_delete_spec 1 (schemas.mkUserRoleUpdate "editor")
                    sample.alice sample.one_user)).
    discriminate.
  - apply (proj1 (proj2 (user_role_update_and_delete_spec 9 (schemas.mkUserRoleUpdate "editor")
                           sample.root sample.one_user))); reflexivity.
  - apply (proj2 (proj2 (user_role_update_and_delete_spec 1 (schemas.mkUserRoleUpdate "editor")
                           sample.root sample.one_user)) eq_refl sample.bob_row eq_refl).
  - apply (proj2 (proj2 (user_role_update_and_delete_spec 1 (schemas.mkUserRoleUpdate "editor")
                           sample.root sample.one_user)) eq_refl sample.bob_row eq_refl).
Defined.

End user_administration.

(** ** Registration and stored roles *)

Section registration.

Variable digest : string → string → string.

Implicit Types (db : crud.Session) (user : schemas.UserCreate) (salt : string).

Lemma create_user_fresh salt user db :
  (∀ u, u ∈ crud.users db →
     models.username u ≠ schemas.uc_username user ∧ models.email u ≠ schemas.uc_email user) →
  ∃ db_user,
    main.create_user digest salt user db =
      (Ok db_user,
       {| crud.users := crud.users db ++ [db_user]; crud.users_seq := crud.users_seq db + 1;
          crud.documents := crud.documents db;
          crud.documents_seq := crud.documents_seq db |})
    ∧ models.username db_user = schemas.uc_username user
    ∧ models.email db_user = schemas.uc_email user
    ∧ models.hashed_password db_user =
        auth.get_password_hash digest salt (schemas.uc_password user)
    ∧ models.is_active db_user = true
    ∧ models.role db_user = default "viewer" (schemas.uc_role user).
Proof.
  intros Hfresh. unfold main.create_user.
  assert (crud.get_user_by_username db (schemas.uc_username user) = None) as ->.
  { apply first_filter_None, Forall_forall. intros u Hu. by apply Hfresh. }
  assert (crud.get_user_by_email db (schemas.uc_email user) = None) as ->.
  { apply first_filter_None, Forall_forall. intros u Hu. by apply Hfresh. }
  unfold crud.create_user. rewrite decide_False.
  - eexists. split; [reflexivity|]. by split_and!.
  - unfold crud.violates_unique. simpl. rewrite Exists_exists.
    intros (u & Hu & Hdup). destruct (Hfresh u Hu). tauto.
Qed.

(** C4: when a user with the requested username exists, registration fails
    with DuplicateUsername; otherwise, when a user with the requested email
    exists, it fails with DuplicateEmail; in both cases the stored users are
    unchanged.  Otherwise a user with the requested username and email is
    appended to the stored users and returned.  The username test comes
    first: a request that repeats both gets DuplicateUsername. *)
Theorem create_user_spec salt user db :
  ((∃ u, u ∈ crud.users db ∧ models.username u = schemas.uc_username user) →
     main.create_user digest salt user db = (Raise main.DuplicateUsername, db))
  ∧ ((∀ u, u ∈ crud.users db → models.username u ≠ schemas.uc_username user) →
     (∃ u, u ∈ crud.users db ∧ models.email u = schemas.uc_email user) →
     main.create_user digest salt user db = (Raise main.DuplicateEmail, db))
  ∧ ((∀ u, u ∈ crud.users db →
        models.username u ≠ schemas.uc_username user ∧ models.email u ≠ schemas.uc_email user) →
     ∃ db_user db',
       main.create_user digest salt user db = (Ok db_user, db')
       ∧ crud.users db' = crud.users db ++ [db_user]
       ∧ models.username db_user = schemas.uc_username user
       ∧ models.email db_user = schemas.uc_email user).
Proof.
  split_and!.
  - intros Hex. unfold main.create_user, crud.get_user_by_username.
    by destruct (first_filter_is_Some
                   (λ u, models.username u = schemas.uc_username user) _ Hex) as [u ->].
  - intros Hname Hex. unfold main.create_user.
    assert (crud.get_user_by_username db (schemas.uc_username user) = None) as ->.
    { apply first_filter_None, Forall_forall. intros u Hu. by apply Hname. }
    unfold crud.get_user_by_email.
    by destruct (first_filter_is_Some
                   (λ u, models.email u = schemas.uc_email user) _ Hex) as [u ->].
  - intros Hfresh. destruct (create_user_fresh salt user db Hfresh) as (db_user & -> & ? & ? & _).
    by eexists _, _.
Qed.

End registration.

Lemma create_user_spec_witness :
  main.create_user sample.digest "na"
      (schemas.parse_UserCreate "bob" "other@example.com" "pw" None) sample.one_user =
    (Raise main.DuplicateUsername, sample.one_user)
  ∧ main.create_user sample.digest "na"
        (schemas.parse_UserCreate "bobby" "bob@example.com" "pw" None) sample.one_user =
      (Raise main.DuplicateEmail, sample.one_user)
  ∧ ∃ db_user db',
      main.create_user sample.digest "na"
          (schemas.parse_UserCreate "carol" "carol@example.com" "pw" None) sample.one_user =
        (Ok db_user, db')
      ∧ crud.users db' = crud.users sample.one_user ++ [db_user]
      ∧ models.username db_user = "carol"
      ∧ models.email db_user = "carol@example.com".
Proof.
  split_and!.
  - apply (proj1 (create_user_spec sample.digest "na"
                    (schemas.parse_UserCreate "bob" "other@example.com" "pw" None)
                    sample.one_user)).
    exists sample.bob_row. split; [apply list_elem_of_singleton|]; reflexivity.
  - apply (proj1 (proj2 (create_user_spec sample.digest "na"
                           (schemas.parse_UserCreate "bobby" "bob@example.com" "pw" None)
                           sample.one_user))).
    + intros u Hu. apply list_elem_of_singleton in Hu as ->. discriminate.
    + exists sample.bob_row. split; [apply list_elem_of_singleton|]; reflexivity.
  - apply (proj2 (proj2 (create_user_spec sample.digest "na"
                           (schemas.parse_UserCreate "carol" "carol@example.com" "pw" None)
                           sample.one_user))).
    intros u Hu. apply list_elem_of_singleton in Hu as ->. split; discriminate.
Defined.

Section stored_roles.

Variable digest : string → string → string.

Implicit Types (db : crud.Session) (user : schemas.UserCreate) (salt : string).

Lemma create_user_result salt user db :
  main.create_user digest salt user db = (Raise main.DuplicateUsername, db)
  ∨ main.create_user digest salt user db = (Raise main.DuplicateEmail, db)
  ∨ main.create_user digest salt user db = (Raise main.InternalServerError, db)
  ∨ ∃ db_user db',
      main.create_user digest salt user db = (Ok db_user, db')
      ∧ crud.users db' = crud.users db ++ [db_user]
      ∧ models.role db_user = default "viewer" (schemas.uc_role user).
Proof.
  unfold main.create_user.
  destruct (crud.get_user_by_username _ _); [by left|].
  destruct (crud.get_user_by_email _ _); [by right; left|].
  unfold crud.create_user. case_decide; [by right; right; left|].
  right; right; right. by eexists _, _.
Qed.

Lemma roles_enumerated_register salt user db :
  (∀ r, schemas.uc_role user = Some r → enumerated_role r) →
  roles_enumerated db → roles_enumerated (main.create_user digest salt user db).2.
Proof.
  intros Hrole Hinv.
  destruct (create_user_result salt user db)
    as [->|[->|[->|(db_user & db' & -> & Husers & Hr)]]]; try done.
  intros u. simpl. rewrite Husers, elem_of_app, list_elem_of_singleton.
  intros [Hu| ->]; [by apply Hinv|]. rewrite Hr.
  destruct (schemas.uc_role user) as [r|]; simpl; [by apply Hrole|].
  unfold enumerated_role. set_solver.
Qed.

Lemma roles_enumerated_update user_id role_update current_user db :
  enumerated_role (schemas.ru_role role_update) →
  roles_enumerated db →
  roles_enumerated (main.update_user_role user_id role_update current_user db).2.
Proof.
  intros Hrole Hinv. unfold main.update_user_role. case_decide; [done|].
  unfold crud.update_user_role. destruct (crud.get_user db user_id) as [row|]; [|done].
  intros w. simpl. rewrite list_elem_of_fmap. intros (v & -> & Hv).
  case_decide; [done | by apply Hinv].
Qed.

Lemma roles_enumerated_delete user_id current_user db :
  roles_enumerated db → roles_enumerated (main.delete_user user_id current_user db).2.
Proof.
  intros Hinv. unfold main.delete_user. case_decide; [done|].
  unfold crud.delete_user. destruct (crud.get_user db user_id) as [row|]; [|done].
  intros w. simpl. rewrite list_elem_of_filter. intros [_ Hw]. by apply Hinv.
Qed.

Lemma roles_enumerated_run ops db :
  Forall (λ o, ∀ r, main.supplied_role o = Some r → enumerated_role r) ops →
  roles_enumerated db → roles_enumerated (main.run_user_operations digest ops db).
Proof.
  unfold main.run_user_operations. intros Hops. revert db.
  induction Hops as [|o ops Ho _ IH]; intros db Hinv; simpl; [done|].
  apply IH. destruct o as [salt user|user_id role_update current_user|user_id current_user];
    simpl in *.
  - by apply roles_enumerated_register.
  - apply roles_enumerated_update; [by apply Ho | done].
  - by apply roles_enumerated_delete.
Qed.

(** Roles are stored as supplied: the row a registration returns has the
    role the request carried, or [viewer] when it carried none, the row a
    role update returns has the role of the request, and a sequence of
    requests whose roles are all among [admin], [editor] and [viewer] leaves
    only these roles in the table. *)
Lemma stored_role_is_supplied_role :
  (∀ ops db,
     Forall (λ o, ∀ r, main.supplied_role o = Some r → enumerated_role r) ops →
     roles_enumerated db → roles_enumerated (main.run_user_operations digest ops db))
  ∧ roles_enumerated crud.empty_session
  ∧ (∀ salt username email password db db_user db',
       main.create_user digest salt (schemas.parse_UserCreate username email password None) db =
         (Ok db_user, db') →
       db_user ∈ crud.users db' ∧ models.role db_user = "viewer")
  ∧ (∀ salt user db db_user db' r,
       schemas.uc_role user = Some r →
       main.create_user digest salt user db = (Ok db_user, db') →
       db_user ∈ crud.users db' ∧ models.role db_user = r)
  ∧ (∀ user_id role_update current_user db db_user db',
       main.update_user_role user_id role_update current_user db = (Ok db_user, db') →
       crud.get_user db' user_id = Some db_user
       ∧ models.role db_user = schemas.ru_role role_update).
Proof.
  split_and!.
  - apply roles_enumerated_run.
  - intros u. simpl. by rewrite elem_of_nil.
  - intros salt username email password db db_user db' Hc.
    destruct (create_user_result salt (schemas.parse_UserCreate username email password None) db)
      as [H|[H|[H|(u & d & H & Husers & Hr)]]]; rewrite H in Hc; try discriminate.
    injection Hc as <- <-. split; [|done].
    rewrite Husers. set_solver.
  - intros salt user db db_user db' r Hrole Hc.
    destruct (create_user_result salt user db)
      as [H|[H|[H|(u & d & H & Husers & Hr)]]]; rewrite H in Hc; try discriminate.
    injection Hc as <- <-. split; [rewrite Husers; set_solver|].
    by rewrite Hr, Hrole.
  - intros user_id role_update current_user db db_user db'.
    unfold main.update_user_role. case_decide; [discriminate|].
    destruct (crud.get_user db user_id) as [row|] eqn:Hg.
    + pose proof (get_user_after_update db user_id (schemas.ru_role role_update) row Hg) as Hup.
      unfold crud.update_user_role in *. rewrite Hg in *. simpl in *.
      by intros [= <- <-].
    + unfold crud.update_user_role. rewrite Hg. discriminate.
Qed.

End stored_roles.

(** C7: the code does not keep the enumeration of roles.  A registration
    that supplies the role [superuser] is served and stores exactly that
    role, and so does a role update by an administrator that supplies
    [owner]; neither string is one of [admin], [editor], [viewer], the values
    listed next to the [role] column. *)
Lemma stored_role_outside_enumeration :
  (∃ db_user db',
     main.create_user sample.digest "na"
         (schemas.parse_UserCreate "eve" "eve@example.com" "pw" (Some (Some "superuser")))
         crud.empty_session = (Ok db_user, db')
     ∧ db_user ∈ crud.users db'
     ∧ models.role db_user = "superuser"
     ∧ ¬ enumerated_role (models.role db_user))
  ∧ (∃ db_user db',
       main.update_user_role 1 (schemas.mkUserRoleUpdate "owner") sample.root sample.one_user =
         (Ok db_user, db')
       ∧ crud.get_user db' 1 = Some db_user
       ∧ models.role db_user = "owner"
       ∧ ¬ enumerated_role (models.role db_user)).
Proof.
  split; eexists _, _; (split_and!; [reflexivity| |reflexivity|]).
  - simpl. set_solver.
  - unfold enumerated_role. simpl. rewrite !elem_of_cons, elem_of_nil.
    intros [?|[?|[?|[]]]]; discriminate.
  - reflexivity.
  - unfold enumerated_role. simpl. rewrite !elem_of_cons, elem_of_nil.
    intros [?|[?|[?|[]]]]; discriminate.
Qed.


(** ** Document upload: the recorded title *)

Section document_title.

Lemma contains_append c stem rest :
  py.contains c (stem +:+ String c rest) = true.
Proof.
  induction stem as [|a stem IH]; simpl.
  - by rewrite Ascii.eqb_refl.
  - by destruct (Ascii.eqb a c).
Qed.

Lemma contains_first c s :
  py.contains c s = true →
  ∃ stem rest, s = stem +:+ String c rest ∧ py.contains c stem = false.
Proof.
  induction s as [|a s IH]; simpl; [done|].
  destruct (Ascii.eqb a c) eqn:Hac.
  - intros _. apply Ascii.eqb_eq in Hac as ->. by exists EmptyString, s.
  - intros (stem & rest & -> & Hstem)%IH.
    exists (String a stem), rest. simpl. by rewrite Hac.
Qed.

Lemma split_first c stem rest :
  py.contains c stem = false →
  ∃ pieces, py.split c (stem +:+ String c rest) = stem :: pieces.
Proof.
  induction stem as [|a stem IH]; simpl.
  - intros _. rewrite Ascii.eqb_refl. by eexists.
  - destruct (Ascii.eqb a c); [done|].
    intros (pieces & ->)%IH. by eexists.
Qed.

Lemma document_title_stem stem rest :
  py.contains "." stem = false →
  main.document_title (stem +:+ String "." rest) = Some stem.
Proof.
  intros Hstem. unfold main.document_title. rewrite contains_append.
  by destruct (split_first "." stem rest Hstem) as [pieces ->].
Qed.

Lemma document_title_no_dot filename :
  py.contains "." filename = false → main.document_title filename = Some filename.
Proof. intros Hdot. unfold main.document_title. by rewrite Hdot. Qed.

Lemma document_title_total filename : is_Some (main.document_title filename).
Proof.
  destruct (py.contains "." filename) eqn:Hdot.
  - apply contains_first in Hdot as (stem & rest & -> & Hstem).
    rewrite document_title_stem; eauto.
  - rewrite document_title_no_dot; eauto.
Qed.

Variable can_open : string → bool.
Variable upload_time_default : Z.

(** C8, amended: when the file can be opened for writing at its place under
    the upload directory and the current user has a user row, the upload
    handler records a document row, and the title of the row is the filename
    stem: the whole filename when it contains no ".", and otherwise the part
    of the filename before its first ".", that is the dot-free prefix that a
    "." follows.  When the file cannot be opened the handler raises and
    changes nothing; when the current user has no user row it raises after
    the file is written and records no row. *)
Theorem create_document_title settings file current_user db files :
  (can_open (py.os_path_join (config.documents_upload_path settings) (main.uf_filename file)) =
     false →
   main.create_document can_open upload_time_default settings file current_user db files =
     (Raise main.InternalServerError, db, files))
  ∧ (can_open (py.os_path_join (config.documents_upload_path settings) (main.uf_filename file)) =
       true →
     crud.get_user db (schemas.id current_user) = None →
     ∃ db',
       main.create_document can_open upload_time_default settings file current_user db files =
         (Raise main.InternalServerError, db',
          <[py.os_path_join (config.documents_upload_path settings) (main.uf_filename file) :=
              main.uf_file file]> files)
       ∧ crud.documents db' = crud.documents db)
  ∧ (can_open (py.os_path_join (config.documents_upload_path settings) (main.uf_filename file)) =
       true →
     is_Some (crud.get_user db (schemas.id current_user)) →
     ∃ db_document,
       main.create_document can_open upload_time_default settings file current_user db files =
         (Ok db_document,
          {| crud.users := crud.users db; crud.users_seq := crud.users_seq db;
             crud.documents := crud.documents db ++ [db_document];
             crud.documents_seq := crud.documents_seq db + 1 |},
          <[py.os_path_join (config.documents_upload_path settings) (main.uf_filename file) :=
              main.uf_file file]> files)
       ∧ models.filename db_document = main.uf_filename file
       ∧ (py.contains "." (main.uf_filename file) = false →
            models.title db_document = main.uf_filename file)
       ∧ (py.contains "." (main.uf_filename file) = true →
            ∃ stem rest, main.uf_filename file = stem +:+ String "." rest
                         ∧ py.contains "." stem = false)
       ∧ (∀ stem rest,
            main.uf_filename file = stem +:+ String "." rest →
            py.contains "." stem = false →
            models.title db_document = stem)).
Proof.
  unfold main.create_document, crud.create_document. split_and!.
  - by intros ->.
  - intros -> Hnone.
    destruct (document_title_total (main.uf_filename file)) as [title ->].
    rewrite decide_False by (rewrite Hnone; by intros [? ?]). by eexists.
  - intros -> Hrow.
    destruct (document_title_total (main.uf_filename file)) as [title Ht]. rewrite Ht.
    rewrite decide_True by done.
    eexists. split_and!; [reflexivity|done|..]; simpl.
    + intros Hdot. rewrite document_title_no_dot in Ht by done. by injection Ht.
    + apply contains_first.
    + intros stem rest Hname Hstem. rewrite Hname, document_title_stem in Ht by done.
      by injection Ht.
Qed.

End document_title.

(** C8, as stated, fails: not every upload records metadata.  In a
    deployment where the upload directory has no subdirectory [sub], the
    upload of "sub/x.txt" raises when the file is opened; no row is recorded
    and no file is written. *)
Lemma create_document_unwritable_path :
  main.create_document sample.can_open 0 config.settings
      (main.mkUploadFile "sub/x.txt" "bytes") sample.alice sample.office ∅ =
    (Raise main.InternalServerError, sample.office, ∅).
Proof. reflexivity. Qed.

Lemma create_document_title_witness :
  main.document_title "a.b.c" = Some "a"
  ∧ main.document_title ".bashrc" = Some EmptyString
  ∧ main.document_title "README" = Some "README"
  ∧ ∃ db_document,
      (main.create_document sample.can_open 0 config.settings
         (main.mkUploadFile "a.b.c" "bytes") sample.alice sample.office ∅).1.1 = Ok db_document
      ∧ models.title db_document = "a".
Proof.
  split_and!; try reflexivity.
  destruct (proj2 (proj2 (create_document_title sample.can_open 0 config.settings
                            (main.mkUploadFile "a.b.c" "bytes") sample.alice sample.office ∅))
              eq_refl ltac:(by eexists))
    as (db_document & Hc & _ & _ & _ & Hstem).
  exists db_document. split.
  - by rewrite Hc.
  - apply (Hstem "a" "b.c"); reflexivity.
Defined.

(** ** Document access *)

Section document_access.

Implicit Types (db : crud.Session) (current_user : schemas.User) (document_id : Z).

Lemma get_document_after_delete db document_id :
  crud.get_document (crud.delete_document db document_id).2 document_id = None.
Proof.
  unfold crud.delete_document. destruct (crud.get_document db document_id) eqn:Hg; [|done].
  unfold crud.get_document. simpl.
  apply (first_filter_excluded (λ d, models.doc_id d = document_id)).
Qed.

Lemma get_document_after_delete_other db document_id other :
  other ≠ document_id →
  crud.get_document (crud.delete_document db document_id).2 other = crud.get_document db other.
Proof.
  intros Hne. unfold crud.delete_document.
  destruct (crud.get_document db document_id) as [found|] eqn:Hg; [|done].
  unfold crud.get_document. simpl. clear Hg found. f_equal.
  induction (crud.documents db) as [|row rows IH]; [done|].
  rewrite !filter_cons.
  destruct (decide (models.doc_id row ≠ document_id)) as [Hd|Hd].
  - rewrite filter_cons. by rewrite IH.
  - rewrite decide_False; [done|]. intros Ho. apply Hd. congruence.
Qed.

(** C10: for every current user, whatever the role and whether or not the
    user owns the document, deleting an existing document succeeds, returns
    it and removes it, leaving the other documents in place; and reading,
    listing and downloading give every user the same result, so none of them
    is restricted to the owner. *)
Theorem delete_document_any_user document_id current_user db db_document :
  crud.get_document db document_id = Some db_document →
  (main.delete_document document_id current_user db).1 = Ok db_document
  ∧ crud.get_document (main.delete_document document_id current_user db).2 document_id = None
  ∧ (∀ other, other ≠ document_id →
       crud.get_document (main.delete_document document_id current_user db).2 other =
         crud.get_document db other)
  ∧ main.read_document document_id current_user db = Ok db_document
  ∧ (∀ other_user settings files skip limit,
       main.delete_document document_id other_user db =
         main.delete_document document_id current_user db
       ∧ main.read_document document_id other_user db =
           main.read_document document_id current_user db
       ∧ main.read_documents skip limit other_user db =
           main.read_documents skip limit current_user db
       ∧ main.download_document settings document_id other_user db files =
           main.download_document settings document_id current_user db files).
Proof.
  intros Hg.
  pose proof (get_document_after_delete db document_id) as Hgone.
  pose proof (get_document_after_delete_other db document_id) as Hkept.
  unfold main.delete_document, main.read_document. rewrite Hg.
  unfold crud.delete_document in *. rewrite Hg in *. simpl in *.
  by split_and!.
Qed.

Lemma delete_document_any_user_witness :
  (main.delete_document 1 sample.alice sample.one_document).1 = Ok sample.report
  ∧ models.owner_id sample.report ≠ Some (schemas.id sample.alice)
  ∧ schemas.role sample.alice = "viewer"
  ∧ crud.get_document (main.delete_document 1 sample.alice sample.one_document).2 1 = None.
Proof.
  pose proof (delete_document_any_user 1 sample.alice sample.one_document sample.report
                eq_refl) as (Hdel & Hgone & _).
  split_and!; [exact Hdel | discriminate | reflexivity | exact Hgone].
Defined.

End document_access.

(** ** Credentials *)

Section passwords.

Variable digest : string → string → string.





End passwords.




Section tokens.

Variable sign : string → auth.Payload → string.

Implicit Types (secret subject : string) (now issued ttl : Z) (token : auth.Token).

Lemma verify_token_signed secret now token :
  auth.signature token = sign secret (auth.payload token) →
  auth.verify_token sign secret now token =
    if auth.exp (auth.payload token) <? now then inl auth.ExpiredToken
    else inr (auth.sub (auth.payload token)).
Proof. intros Hs. unfold auth.verify_token. by rewrite Hs, String.eqb_refl. Qed.

Lemma verify_token_unsigned secret now token :
  auth.signature token ≠ sign secret (auth.payload token) →
  auth.verify_token sign secret now token = inl auth.InvalidToken.
Proof.
  intros Hs. unfold auth.verify_token.
  by apply String.eqb_neq in Hs as ->.
Qed.

(** C5, amended: for every subject and every ttl that is not negative,
    [verify_token] applied at once to the token from [create_access_token]
    returns the subject, and so it does at any time up to the expiry; with a
    negative ttl the token is already expired when issued.  [verify_token] on
    a correctly signed token whose expiry has passed fails with ExpiredToken.
    [verify_token] on a token whose signature does not verify against the
    secret (for one, a token whose payload was replaced by one with another
    signature) fails with InvalidToken, whatever its expiry. *)
Theorem verify_token_spec secret now :
  (∀ subject ttl, 0 ≤ ttl →
     auth.verify_token sign secret now (auth.create_access_token sign secret now subject ttl) =
       inr subject)
  ∧ (∀ issued subject ttl, now ≤ issued + ttl →
       auth.verify_token sign secret now
         (auth.create_access_token sign secret issued subject ttl) = inr subject)
  ∧ (∀ subject ttl, ttl < 0 →
       auth.verify_token sign secret now
         (auth.create_access_token sign secret now subject ttl) = inl auth.ExpiredToken)
  ∧ (∀ token, auth.signature token = sign secret (auth.payload token) →
       auth.exp (auth.payload token) < now →
       auth.verify_token sign secret now token = inl auth.ExpiredToken)
  ∧ (∀ token, auth.signature token ≠ sign secret (auth.payload token) →
       auth.verify_token sign secret now token = inl auth.InvalidToken)
  ∧ (∀ issued subject ttl tampered,
       sign secret tampered ≠ sign secret (auth.mkPayload subject (issued + ttl)) →
       auth.verify_token sign secret now
         (auth.mkToken tampered
            (auth.signature (auth.create_access_token sign secret issued subject ttl))) =
         inl auth.InvalidToken).
Proof.
  split_and!.
  - intros subject ttl Httl. rewrite verify_token_signed by done. simpl.
    by rewrite (proj2 (Z.ltb_ge _ _)) by lia.
  - intros issued subject ttl Hle. rewrite verify_token_signed by done. simpl.
    by rewrite (proj2 (Z.ltb_ge _ _)) by lia.
  - intros subject ttl Httl. rewrite verify_token_signed by done. simpl.
    by rewrite (proj2 (Z.ltb_lt _ _)) by lia.
  - intros token Hs Hexp. rewrite verify_token_signed by done.
    by rewrite (proj2 (Z.ltb_lt _ _)) by lia.
  - intros token Hs. by apply verify_token_unsigned.
  - intros issued subject ttl tampered Hs. apply verify_token_unsigned. simpl. congruence.
Qed.

(** The token of a successful login verifies at once to the username of
    the logged-in user, provided the configured lifetime is not negative. *)
Lemma login_token_verifies settings now user :
  0 ≤ config.access_token_expire_minutes settings →
  ∃ token,
    main.login_for_access_token sign settings now (Some user) =
      Ok {| main.access_token := token; main.token_type := "bearer" |}
    ∧ auth.verify_token sign (config.secret_key settings) now token =
        inr (models.username user).
Proof.
  intros Hmin. eexists. split; [reflexivity|].
  rewrite verify_token_signed by done. simpl.
  by rewrite (proj2 (Z.ltb_ge _ _)) by lia.
Qed.

End tokens.

(** C5, as stated, fails for a negative ttl: the token issued with ttl [-1]
    and verified at the very instant of issue is rejected as expired. *)
Lemma verify_token_negative_ttl :
  auth.verify_token sample.sign "your-super-secret-key" 1000
    (auth.create_access_token sample.sign "your-super-secret-key" 1000 "alice" (-1)) =
    inl auth.ExpiredToken.
Proof. reflexivity. Qed.

Lemma verify_token_spec_witness :
  auth.verify_token sample.sign "your-super-secret-key" 1000
    (auth.create_access_token sample.sign "your-super-secret-key" 1000 "alice" 1800) =
    inr "alice"
  ∧ auth.verify_token sample.sign "your-super-secret-key" 2801
      (auth.create_access_token sample.sign "your-super-secret-key" 1000 "alice" 1800) =
      inl auth.ExpiredToken
  ∧ auth.verify_token sample.sign "your-super-secret-key" 1000
      (auth.mkToken (auth.mkPayload "root" 2800)
         (auth.signature
            (auth.create_access_token sample.sign "your-super-secret-key" 1000 "alice" 1800))) =
      inl auth.InvalidToken.
Proof.
  split_and!.
  - apply (proj1 (verify_token_spec sample.sign "your-super-secret-key" 1000)). lia.
  - apply (proj1 (proj2 (proj2 (proj2
             (verify_token_spec sample.sign "your-super-secret-key" 2801))))).
    + reflexivity.
    + simpl. lia.
  - apply (proj2 (proj2 (proj2 (proj2 (proj2
             (verify_token_spec sample.sign "your-super-secret-key" 1000)))))
             1000 "alice" 1800 (auth.mkPayload "root" 2800)).
    vm_compute. discriminate.
Defined.

(** * Further properties *)

(** ** The ingestion tracker, continued *)

Section ingestion_tracker_more.

Implicit Types (tasks : gmap Z schemas.IngestionTask) (task : schemas.IngestionTask).
Implicit Types (document_id : Z) (db : crud.Session) (current_user : schemas.User).

(** X1: a trigger that has just succeeded blocks the next one: a second
    trigger for the same document, by any user, is refused as already
    [pending] and changes neither the mapping nor the scheduled work. *)
Theorem trigger_ingestion_twice document_id bg current_user other_user db tasks task bg' tasks' :
  main.trigger_ingestion document_id bg current_user db tasks = (Ok task, bg', tasks') →
  tasks' !! document_id = Some task
  ∧ schemas.status task = "pending"
  ∧ main.trigger_ingestion document_id bg' other_user db tasks' =
      (Raise (main.AlreadyRunning document_id "pending"), bg', tasks').
Proof.
  unfold main.trigger_ingestion.
  destruct (crud.get_document db document_id) as [doc|]; [|discriminate].
  intros Hfirst.
  assert ((Ok task, bg', tasks') =
          (Ok (pending_task document_id), bg ++ [document_id],
           <[document_id := pending_task document_id]> tasks)) as [= -> -> ->].
  { destruct (tasks !! document_id) as [old|]; [|done].
    by destruct (bool_decide _). }
  rewrite lookup_insert_eq. by split_and!.
Qed.

Lemma trigger_ingestion_twice_witness :
  main.trigger_ingestion 1 [1] sample.root sample.one_document
      {[1 := pending_task 1]} =
    (Raise (main.AlreadyRunning 1 "pending"), [1], {[1 := pending_task 1]}).
Proof.
  apply (trigger_ingestion_twice 1 [] sample.alice sample.root sample.one_document ∅
           (pending_task 1) [1] {[1 := pending_task 1]}).
  reflexivity.
Defined.

(** X2: while the background body is at its delay the entry is
    [processing] and a trigger is refused; once the body has finished, a
    trigger for the same existing document is accepted again and replaces the
    completed entry, message included, by a fresh [pending] one. *)
Theorem trigger_during_and_after_run document_id bg current_user db tasks doc h :
  crud.get_document db document_id = Some doc →
  is_Some (tasks !! document_id) →
  main.process_ingestion_task document_id tasks = Some h →
  (∃ at_delay, h !! 0%nat = Some at_delay
     ∧ main.trigger_ingestion document_id bg current_user db at_delay =
         (Raise (main.AlreadyRunning document_id "processing"), bg, at_delay))
  ∧ main.trigger_ingestion document_id bg current_user db (main.final tasks h) =
      (Ok (pending_task document_id), bg ++ [document_id],
       <[document_id := pending_task document_id]> tasks).
Proof.
  intros Hdoc [task Hl] Hrun.
  rewrite (process_ingestion_task_present _ _ _ Hl) in Hrun. injection Hrun as <-.
  unfold main.trigger_ingestion, main.final. rewrite Hdoc. simpl. split.
  - eexists. split; [reflexivity|]. by rewrite lookup_insert_eq.
  - rewrite lookup_insert_eq. simpl. by rewrite insert_insert_eq.
Qed.

Lemma trigger_during_and_after_run_witness :
  main.trigger_ingestion 1 [] sample.alice sample.one_document
      (main.final {[1 := pending_task 1]}
         [ {[1 := with_status "processing" (pending_task 1)]};
           {[1 := with_status "completed" (pending_task 1)]};
           {[1 := completed_task (pending_task 1)]} ]) =
    (Ok (pending_task 1), [1], <[1 := pending_task 1]> {[1 := pending_task 1]}).
Proof.
  apply (trigger_during_and_after_run 1 [] sample.alice sample.one_document
           {[1 := pending_task 1]} sample.report).
  - reflexivity.
  - exists (pending_task 1). apply lookup_singleton_eq.
  - rewrite (process_ingestion_task_present 1 _ (pending_task 1)) by apply lookup_singleton_eq.
    by rewrite !insert_singleton_eq.
Defined.

(** A property that every operation keeps at each value it gives the
    dictionary holds all along a sequence of operations. *)
Lemma history_invariant (P : gmap Z schemas.IngestionTask → Prop) :
  (∀ o tasks, P tasks → Forall P (main.operation_history o tasks)) →
  ∀ ops tasks, P tasks → Forall P (main.history ops tasks).
Proof.
  intros Hop ops. induction ops as [|o ops IH]; intros tasks HP; simpl.
  - apply Forall_nil_2.
  - pose proof (Hop o tasks HP) as Ho. apply Forall_app. split; [done|].
    apply IH. unfold main.final.
    destruct (last (main.operation_history o tasks)) as [s|] eqn:Hlast; simpl; [|done].
    rewrite Forall_forall in Ho. by apply Ho, last_Some_elem_of.
Qed.

Lemma tracker_keyed_insert document_id task tasks :
  schemas.document_id task = document_id → tracker_keyed tasks →
  tracker_keyed (<[document_id := task]> tasks).
Proof.
  intros Hid Hk d t. rewrite lookup_insert. case_decide; [|by apply Hk].
  by intros [= <-]; subst.
Qed.

Lemma tracker_keyed_operation o tasks :
  tracker_keyed tasks → Forall tracker_keyed (main.operation_history o tasks).
Proof.
  intros Hk. destruct o as [d u db|d|u]; simpl.
  - apply Forall_singleton. unfold main.trigger_ingestion.
    destruct (crud.get_document db d); [|done].
    assert (tracker_keyed (<[d := schemas.IngestionTask_new d "pending"]> tasks)) as Hfresh
      by by apply tracker_keyed_insert.
    destruct (tasks !! d) as [old|]; [|done]. by destruct (bool_decide _).
  - destruct (tasks !! d) as [task|] eqn:Hl.
    + rewrite (process_ingestion_task_present _ _ _ Hl). simpl.
      repeat apply Forall_cons_2; try apply Forall_nil_2;
        (apply tracker_keyed_insert; [simpl; by apply (Hk d) | done]).
    + rewrite (process_ingestion_task_absent _ _ Hl). apply Forall_nil_2.
  - by apply Forall_singleton.
Qed.

(** X3: along any sequence of operations from the empty mapping, every entry
    of the mapping carries the document id it is filed under. *)
Theorem tracker_entries_keyed ops tasks document_id task :
  tasks ∈ ∅ :: main.history ops ∅ →
  tasks !! document_id = Some task →
  schemas.document_id task = document_id.
Proof.
  intros Hin. revert document_id task. change (tracker_keyed tasks).
  assert (tracker_keyed ∅) as Hempty by (intros d t; by rewrite lookup_empty).
  apply elem_of_cons in Hin as [->|Hin]; [done|].
  pose proof (history_invariant tracker_keyed tracker_keyed_operation ops ∅ Hempty) as Hall.
  rewrite Forall_forall in Hall. by apply Hall.
Qed.

Lemma tracker_entries_keyed_witness :
  schemas.document_id (completed_task (pending_task 1)) = 1.
Proof.
  apply (tracker_entries_keyed
           [main.op_trigger 1 sample.alice sample.one_document; main.op_run 1]
           {[1 := completed_task (pending_task 1)]} 1).
  - apply list_elem_of_lookup. exists 4%nat. vm_compute. reflexivity.
  - apply lookup_singleton_eq.
Defined.

Lemma is_Some_insert_keeps (tasks : gmap Z schemas.IngestionTask) d d' task :
  is_Some (tasks !! d) → is_Some (<[d' := task]> tasks !! d).
Proof. intros Hs. rewrite lookup_insert. by case_decide. Qed.

Lemma entry_kept_operation document_id o tasks :
  is_Some (tasks !! document_id) →
  Forall (λ tasks', is_Some (tasks' !! document_id)) (main.operation_history o tasks).
Proof.
  intros Hs. destruct o as [d u db|d|u]; simpl.
  - apply Forall_singleton. unfold main.trigger_ingestion.
    destruct (crud.get_document db d); [|done].
    pose proof (is_Some_insert_keeps tasks document_id d
                  (schemas.IngestionTask_new d "pending") Hs) as Hfresh.
    destruct (tasks !! d) as [old|] eqn:Hl; [|done]. by destruct (bool_decide _).
  - destruct (tasks !! d) as [task|] eqn:Hl.
    + rewrite (process_ingestion_task_present _ _ _ Hl). simpl.
      repeat apply Forall_cons_2; try apply Forall_nil_2; by apply is_Some_insert_keeps.
    + rewrite (process_ingestion_task_absent _ _ Hl). apply Forall_nil_2.
  - by apply Forall_singleton.
Qed.

(** X4: nothing ever removes an entry: a document id that has an entry
    keeps one at every later value of the mapping, whatever operations
    follow. *)
Theorem tracker_entry_never_removed ops tasks tasks' document_id :
  is_Some (tasks !! document_id) →
  tasks' ∈ main.history ops tasks →
  is_Some (tasks' !! document_id).
Proof.
  intros Hs Hin.
  pose proof (history_invariant (λ t, is_Some (t !! document_id))
                (entry_kept_operation document_id) ops tasks Hs) as Hall.
  rewrite Forall_forall in Hall. by apply Hall.
Qed.

Lemma tracker_entry_never_removed_witness :
  is_Some (({[1 := completed_task (pending_task 1); 2 := pending_task 2]}
              : gmap Z schemas.IngestionTask) !! 1).
Proof.
  apply (tracker_entry_never_removed
           [main.op_run 1;
            main.op_trigger 2 sample.alice
              (crud.mkSession [] 0 [models.mkDocument 2 "notes" "notes.txt" 0 (Some 1)] 2)]
           {[1 := pending_task 1]}).
  - exists (pending_task 1). apply lookup_singleton_eq.
  - apply list_elem_of_lookup. exists 3%nat. vm_compute. reflexivity.
Defined.

End ingestion_tracker_more.

(** ** Queries over a table, continued *)

Section tables_more.

Context {A : Type} (P : A → Prop) `{!∀ x, Decision (P x)}.

Lemma first_filter_snoc (rows : list A) x :
  crud.first (filter P (rows ++ [x])) =
    match crud.first (filter P rows) with
    | Some y => Some y
    | None => if decide (P x) then Some x else None
    end.
Proof.
  unfold crud.first. rewrite filter_app.
  destruct (filter P rows) as [|y ys]; simpl; [|done].
  rewrite filter_cons, filter_nil. by destruct (decide (P x)).
Qed.

Lemma first_filter_snoc_fresh (rows : list A) x :
  Forall (λ y, ¬ P y) rows → P x → crud.first (filter P (rows ++ [x])) = Some x.
Proof.
  intros Hrows Hx. rewrite first_filter_snoc.
  rewrite (proj2 (first_filter_None P rows) Hrows). by rewrite decide_True.
Qed.

Lemma first_filter_snoc_other (rows : list A) x :
  ¬ P x → crud.first (filter P (rows ++ [x])) = crud.first (filter P rows).
Proof.
  intros Hx. rewrite first_filter_snoc.
  destruct (crud.first (filter P rows)); [done|]. by rewrite decide_False.
Qed.

Lemma first_filter_filter_other (Q : A → Prop) `{!∀ x, Decision (Q x)} (rows : list A) :
  (∀ x, P x → Q x) →
  crud.first (filter P (filter Q rows)) = crud.first (filter P rows).
Proof.
  intros HPQ. unfold crud.first. f_equal.
  induction rows as [|x rows IH]; [done|].
  rewrite !filter_cons. destruct (decide (Q x)) as [HQ|HQ].
  - rewrite filter_cons. by rewrite IH.
  - rewrite decide_False; [done|]. intros HP. by apply HQ, HPQ.
Qed.

End tables_more.

Lemma NoDup_fmap_elem_inj {A B : Type} (f : A → B) (l : list A) x y :
  NoDup (f <$> l) → x ∈ l → y ∈ l → f x = f y → x = y.
Proof.
  induction l as [|a l IH]; simpl; [by intros _ ?%elem_of_nil|].
  rewrite NoDup_cons, !elem_of_cons. intros [Ha Hl] [->|Hx] [->|Hy] Hf; try done.
  - destruct Ha. rewrite Hf. by apply list_elem_of_fmap_2.
  - destruct Ha. rewrite <- Hf. by apply list_elem_of_fmap_2.
  - by apply IH.
Qed.

(** ** Users, continued *)

Section users_more.

Variable digest : string → string → string.

Implicit Types (db : crud.Session) (user : schemas.UserCreate) (salt : string).
Implicit Types (current_user : schemas.User) (user_id : Z).

Lemma create_user_ok_inv salt user db db_user db' :
  main.create_user digest salt user db = (Ok db_user, db') →
  models.id db_user = crud.users_seq db + 1
  ∧ models.username db_user = schemas.uc_username user
  ∧ models.email db_user = schemas.uc_email user
  ∧ crud.users db' = crud.users db ++ [db_user]
  ∧ crud.users_seq db' = crud.users_seq db + 1
  ∧ crud.documents db' = crud.documents db
  ∧ crud.documents_seq db' = crud.documents_seq db
  ∧ Forall (λ u, models.username u ≠ schemas.uc_username user) (crud.users db)
  ∧ Forall (λ u, models.email u ≠ schemas.uc_email user) (crud.users db).
Proof.
  unfold main.create_user.
  destruct (crud.get_user_by_username db _) eqn:Hname; [discriminate|].
  destruct (crud.get_user_by_email db _) eqn:Hemail; [discriminate|].
  unfold crud.create_user. case_decide; [discriminate|]. intros [= <- <-]. simpl.
  split_and!; try done.
  - by apply (first_filter_None (λ u, models.username u = schemas.uc_username user)).
  - by apply (first_filter_None (λ u, models.email u = schemas.uc_email user)).
Qed.

Lemma create_user_failure_keeps salt user db e db' :
  main.create_user digest salt user db = (Raise e, db') → db' = db.
Proof.
  unfold main.create_user.
  destruct (crud.get_user_by_username db _); [by intros [= _ <-]|].
  destruct (crud.get_user_by_email db _); [by intros [= _ <-]|].
  unfold crud.create_user. case_decide; [by intros [= _ <-] | discriminate].
Qed.

(** X5: a user that registration has just returned can be looked up by its
    username and by its email, and, when the stored primary keys are unique
    and drawn from the sequence, by its id; lookups of other usernames and
    ids answer as before. *)
Theorem register_then_lookup salt user db db_user db' :
  main.create_user digest salt user db = (Ok db_user, db') →
  crud.get_user_by_username db' (schemas.uc_username user) = Some db_user
  ∧ crud.get_user_by_email db' (schemas.uc_email user) = Some db_user
  ∧ (users_wf db → crud.get_user db' (models.id db_user) = Some db_user)
  ∧ (∀ name, name ≠ schemas.uc_username user →
       crud.get_user_by_username db' name = crud.get_user_by_username db name)
  ∧ (∀ other, other ≠ models.id db_user → crud.get_user db' other = crud.get_user db other).
Proof.
  intros (Hid & Hname & Hemail & Husers & _ & _ & _ & Hfn & Hfe)%create_user_ok_inv.
  unfold crud.get_user_by_username, crud.get_user_by_email, crud.get_user. rewrite Husers.
  split_and!.
  - by apply (first_filter_snoc_fresh (λ u, models.username u = schemas.uc_username user)).
  - by apply (first_filter_snoc_fresh (λ u, models.email u = schemas.uc_email user)).
  - intros (_ & _ & _ & Hbound).
    apply (first_filter_snoc_fresh (λ u, models.id u = models.id db_user)); [|done].
    eapply Forall_impl; [exact Hbound|]. simpl. intros u Hu. lia.
  - intros name Hne.
    apply (first_filter_snoc_other (λ u, models.username u = name)). congruence.
  - intros other Hne.
    apply (first_filter_snoc_other (λ u, models.id u = other)). congruence.
Qed.

(** X6: once a registration has succeeded, a further registration under
    the same username is refused with DuplicateUsername, whatever its email,
    password, role and salt, and one under an unused username but the same
    email is refused with DuplicateEmail; both leave the session as it is. *)
Theorem register_twice salt user db db_user db' salt' again :
  main.create_user digest salt user db = (Ok db_user, db') →
  (schemas.uc_username again = schemas.uc_username user →
     main.create_user digest salt' again db' = (Raise main.DuplicateUsername, db'))
  ∧ (schemas.uc_username again ≠ schemas.uc_username user →
     crud.get_user_by_username db (schemas.uc_username again) = None →
     schemas.uc_email again = schemas.uc_email user →
     main.create_user digest salt' again db' = (Raise main.DuplicateEmail, db')).
Proof.
  intros (_ & Hname & Hemail & Husers & _ & _ & _ & Hfn & Hfe)%create_user_ok_inv.
  unfold main.create_user, crud.get_user_by_username, crud.get_user_by_email.
  rewrite Husers. split.
  - intros Heq. rewrite Heq.
    by rewrite (first_filter_snoc_fresh
                  (λ u, models.username u = schemas.uc_username user) _ _ Hfn Hname).
  - intros Hne Hfree Heq.
    rewrite (first_filter_snoc_other (λ u, models.username u = schemas.uc_username again))
      by congruence.
    unfold crud.get_user_by_username in Hfree. rewrite Hfree, Heq.
    by rewrite (first_filter_snoc_fresh
                  (λ u, models.email u = schemas.uc_email user) _ _ Hfe Hemail).
Qed.

End users_more.

Lemma register_then_lookup_witness :
  ∃ db_user db',
    main.create_user sample.digest "na"
        (schemas.parse_UserCreate "carol" "carol@example.com" "pw" None) sample.one_user =
      (Ok db_user, db')
    ∧ crud.get_user_by_username db' "carol" = Some db_user
    ∧ crud.get_user db' 2 = Some db_user.
Proof.
  eexists _, _. split; [reflexivity|].
  pose proof (register_then_lookup sample.digest "na"
                (schemas.parse_UserCreate "carol" "carol@example.com" "pw" None)
                sample.one_user _ _ eq_refl) as (Hname & _ & Hid & _).
  split; [exact Hname|]. apply Hid.
  unfold users_wf. simpl. split_and!; try apply NoDup_singleton.
  apply Forall_singleton. simpl. lia.
Defined.

Lemma register_twice_witness :
  main.create_user sample.digest "cl"
      (schemas.parse_UserCreate "bob" "bob2@example.com" "other" (Some (Some "admin")))
      (main.create_user sample.digest "na"
         (schemas.parse_UserCreate "bob" "bob@example.com" "pw" None) crud.empty_session).2 =
    (Raise main.DuplicateUsername,
     (main.create_user sample.digest "na"
        (schemas.parse_UserCreate "bob" "bob@example.com" "pw" None) crud.empty_session).2).
Proof.
  apply (proj1 (register_twice sample.digest "na"
                  (schemas.parse_UserCreate "bob" "bob@example.com" "pw" None)
                  crud.empty_session _ _ "cl"
                  (schemas.parse_UserCreate "bob" "bob2@example.com" "other"
                     (Some (Some "admin")))
                  eq_refl)).
  reflexivity.
Defined.

(** ** User administration, continued *)

Section user_administration_more.

Implicit Types (db : crud.Session) (current_user : schemas.User) (user_id : Z).

Lemma crud_update_user_role_twice db user_id r1 r2 :
  crud.update_user_role (crud.update_user_role db user_id r1).2 user_id r2 =
    crud.update_user_role db user_id r2.
Proof.
  destruct (crud.get_user db user_id) as [row|] eqn:Hg.
  - pose proof (get_user_after_update db user_id r1 row Hg) as Hup.
    unfold crud.update_user_role in *. rewrite Hg in *. simpl in *. rewrite Hup.
    f_equal. f_equal. rewrite <- list_fmap_compose. apply list_fmap_ext.
    intros i u _. simpl. destruct (decide (models.id u = user_id)) as [Hu|Hu]; simpl.
    + by rewrite decide_True.
    + by rewrite decide_False.
  - unfold crud.update_user_role. rewrite Hg. simpl. by rewrite Hg.
Qed.

(** X7: of two role updates of the same user, the later one decides: an
    administrator's update after any earlier update attempt, by whomever and
    to whatever role, gives the same answer and the same session as that
    update alone. *)
Theorem update_user_role_last_wins user_id earlier later earlier_user current_user db :
  schemas.role current_user = "admin" →
  main.update_user_role user_id later current_user
      (main.update_user_role user_id earlier earlier_user db).2 =
    main.update_user_role user_id later current_user db.
Proof.
  intros Hadmin. unfold main.update_user_role.
  destruct (decide (schemas.role current_user ≠ "admin")) as [Hno|_]; [by destruct Hno|].
  destruct (decide (schemas.role earlier_user ≠ "admin")); [done|].
  pose proof (crud_update_user_role_twice db user_id (schemas.ru_role earlier)
                (schemas.ru_role later)) as Htwice.
  destruct (crud.update_user_role db user_id (schemas.ru_role earlier)) as [[row|] db1];
    simpl in *; by rewrite Htwice.
Qed.

Lemma update_user_role_last_wins_witness :
  main.update_user_role 1 (schemas.mkUserRoleUpdate "viewer") sample.root
      (main.update_user_role 1 (schemas.mkUserRoleUpdate "admin") sample.root
         sample.one_user).2 =
    main.update_user_role 1 (schemas.mkUserRoleUpdate "viewer") sample.root sample.one_user.
Proof.
  apply (update_user_role_last_wins 1 (schemas.mkUserRoleUpdate "admin")
           (schemas.mkUserRoleUpdate "viewer") sample.root sample.root sample.one_user).
  reflexivity.
Defined.

Lemma update_user_role_changes_only_role_aux user_id role_update current_user db :
  models.id <$> crud.users (main.update_user_role user_id role_update current_user db).2 =
    models.id <$> crud.users db
  ∧ models.username <$> crud.users (main.update_user_role user_id role_update current_user db).2 =
      models.username <$> crud.users db
  ∧ models.email <$> crud.users (main.update_user_role user_id role_update current_user db).2 =
      models.email <$> crud.users db
  ∧ crud.documents (main.update_user_role user_id role_update current_user db).2 =
      crud.documents db
  ∧ crud.users_seq (main.update_user_role user_id role_update current_user db).2 =
      crud.users_seq db
  ∧ crud.documents_seq (main.update_user_role user_id role_update current_user db).2 =
      crud.documents_seq db.
Proof.
  unfold main.update_user_role. case_decide; [done|].
  unfold crud.update_user_role. destruct (crud.get_user db user_id) as [row|]; [|done].
  simpl. split_and!; try done;
    (rewrite <- list_fmap_compose; apply list_fmap_ext; intros i u _; simpl; by case_decide).
Qed.

(** X8: a role update changes roles only.  Whoever calls it and whether or
    not it succeeds, the session afterwards has the same rows in the same
    order with the same ids, usernames, emails, password hashes and active
    flags, the same documents, and every other user id looks up the record
    it did before. *)
Theorem update_user_role_changes_only_role user_id role_update current_user db :
  models.id <$> crud.users (main.update_user_role user_id role_update current_user db).2 =
    models.id <$> crud.users db
  ∧ models.username <$> crud.users (main.update_user_role user_id role_update current_user db).2 =
      models.username <$> crud.users db
  ∧ models.email <$> crud.users (main.update_user_role user_id role_update current_user db).2 =
      models.email <$> crud.users db
  ∧ models.hashed_password <$>
        crud.users (main.update_user_role user_id role_update current_user db).2 =
      models.hashed_password <$> crud.users db
  ∧ models.is_active <$> crud.users (main.update_user_role user_id role_update current_user db).2 =
      models.is_active <$> crud.users db
  ∧ crud.documents (main.update_user_role user_id role_update current_user db).2 =
      crud.documents db
  ∧ (∀ other, other ≠ user_id →
       crud.get_user (main.update_user_role user_id role_update current_user db).2 other =
         crud.get_user db other).
Proof.
  unfold main.update_user_role. case_decide; [done|].
  unfold crud.update_user_role. destruct (crud.get_user db user_id) as [row|]; [|done].
  simpl. split_and!; try done;
    try (rewrite <- list_fmap_compose; apply list_fmap_ext; intros i u _; simpl; by case_decide).
  intros other Hne. unfold crud.get_user. simpl. f_equal.
  induction (crud.users db) as [|u rows IH]; [done|].
  rewrite fmap_cons, !filter_cons. rewrite IH.
  destruct (decide (models.id u = user_id)) as [Hu|Hu]; simpl; [|done].
  rewrite !decide_False by congruence. done.
Qed.

End user_administration_more.

(** ** Keys of the tables *)

Lemma NoDup_fmap_snoc {A B : Type} (f : A → B) (l : list A) x :
  NoDup (f <$> l) → Forall (λ y, f y ≠ f x) l → NoDup (f <$> (l ++ [x])).
Proof.
  intros Hl Hx. rewrite fmap_app. apply NoDup_app. split_and!; [done| |apply NoDup_singleton].
  intros b (y & -> & Hy)%list_elem_of_fmap Hin. apply list_elem_of_singleton in Hin.
  rewrite Forall_forall in Hx. by apply (Hx y Hy).
Qed.

Lemma NoDup_fmap_filter {A B : Type} (f : A → B) (P : A → Prop) `{!∀ x, Decision (P x)}
    (l : list A) :
  NoDup (f <$> l) → NoDup (f <$> filter P l).
Proof.
  intros Hl. eapply sublist_NoDup; [exact Hl|]. apply fmap_sublist, sublist_filter.
Qed.

Lemma Forall_filter_keeps {A : Type} (Q P : A → Prop) `{!∀ x, Decision (P x)} (l : list A) :
  Forall Q l → Forall Q (filter P l).
Proof.
  rewrite !Forall_forall. intros Hl x [_ Hx]%list_elem_of_filter. by apply Hl.
Qed.

Section session_keys.

Variable digest : string → string → string.
Variable can_open : string → bool.
Variable upload_time_default : Z.

Implicit Types (db : crud.Session) (current_user : schemas.User).

Lemma session_wf_register salt user db :
  session_wf db → session_wf (main.create_user digest salt user db).2.
Proof.
  intros Hwf. destruct (main.create_user digest salt user db) as [[db_user|e] db'] eqn:Hc.
  - apply create_user_ok_inv in Hc
      as (Hid & Hname & Hemail & Husers & Hseq & Hdocs & Hdseq & Hfn & Hfe).
    destruct Hwf as [(Hids & Hnames & Hemails & Hbound) Hd]. simpl.
    split; [|unfold documents_wf; by rewrite Hdocs, Hdseq].
    unfold users_wf. rewrite Husers, Hseq. split_and!.
    + apply NoDup_fmap_snoc; [done|]. eapply Forall_impl; [exact Hbound|].
      simpl. intros u Hu. lia.
    + apply NoDup_fmap_snoc; [done|]. by rewrite Hname.
    + apply NoDup_fmap_snoc; [done|]. by rewrite Hemail.
    + apply Forall_app. split.
      * eapply Forall_impl; [exact Hbound|]. simpl. intros u Hu. lia.
      * apply Forall_singleton. lia.
  - apply create_user_failure_keeps in Hc as ->. done.
Qed.

Lemma session_wf_update_role user_id role_update current_user db :
  session_wf db → session_wf (main.update_user_role user_id role_update current_user db).2.
Proof.
  intros [(Hids & Hnames & Hemails & Hbound) Hd].
  destruct (update_user_role_changes_only_role_aux user_id role_update current_user db)
    as (Eid & Ename & Eemail & Edocs & Eseq & Edseq).
  split.
  - unfold users_wf. rewrite Eid, Ename, Eemail, Eseq. split_and!; try done.
    apply Forall_forall. intros u Hu.
    assert (models.id u ∈ models.id <$> crud.users db) as Hin
      by (rewrite <- Eid; by apply list_elem_of_fmap_2).
    apply list_elem_of_fmap in Hin as (v & -> & Hv).
    rewrite Forall_forall in Hbound. by apply Hbound.
  - unfold documents_wf. by rewrite Edocs, Edseq.
Qed.

Lemma session_wf_delete_user user_id current_user db :
  session_wf db → session_wf (main.delete_user user_id current_user db).2.
Proof.
  intros Hwf. unfold main.delete_user. case_decide; [done|].
  unfold crud.delete_user. destruct (crud.get_user db user_id) as [row|]; [|done].
  destruct Hwf as [(Hids & Hnames & Hemails & Hbound) [Hdids Hdbound]]. simpl. split.
  - unfold users_wf. simpl. split_and!; try by apply NoDup_fmap_filter.
    by apply Forall_filter_keeps.
  - unfold documents_wf. simpl. split.
    + rewrite <- list_fmap_compose.
      rewrite (list_fmap_ext _ models.doc_id); [done|].
      intros i d _. simpl. by case_decide.
    + apply Forall_fmap. eapply Forall_impl; [exact Hdbound|].
      intros d Hd. simpl. by case_decide.
Qed.

Lemma create_document_inv settings file current_user db files :
  can_open (py.os_path_join (config.documents_upload_path settings) (main.uf_filename file)) =
    true →
  is_Some (crud.get_user db (schemas.id current_user)) →
  ∃ db_document,
    main.create_document can_open upload_time_default settings file current_user db files =
      (Ok db_document,
       {| crud.users := crud.users db; crud.users_seq := crud.users_seq db;
          crud.documents := crud.documents db ++ [db_document];
          crud.documents_seq := crud.documents_seq db + 1 |},
       <[py.os_path_join (config.documents_upload_path settings) (main.uf_filename file) :=
           main.uf_file file]> files)
    ∧ models.doc_id db_document = crud.documents_seq db + 1
    ∧ models.filename db_document = main.uf_filename file
    ∧ models.owner_id db_document = Some (schemas.id current_user)
    ∧ models.upload_time db_document = upload_time_default
    ∧ main.document_title (main.uf_filename file) = Some (models.title db_document).
Proof.
  intros Hopen Hrow. unfold main.create_document, crud.create_document. rewrite Hopen.
  destruct (document_title_total (main.uf_filename file)) as [title ->].
  rewrite decide_True by done. eexists. by split_and!.
Qed.

(** Whatever an upload answers, the session it leaves has the users and
    documents it had, or the documents it had and one more, whose id is the
    next of the sequence; the sequence never goes back. *)
Lemma create_document_session settings file current_user db files :
  crud.users
      (main.create_document can_open upload_time_default settings file current_user
         db files).1.2 = crud.users db
  ∧ crud.users_seq
        (main.create_document can_open upload_time_default settings file current_user
           db files).1.2 = crud.users_seq db
  ∧ ((crud.documents
        (main.create_document can_open upload_time_default settings file current_user
           db files).1.2 = crud.documents db
      ∧ crud.documents_seq db ≤
          crud.documents_seq
            (main.create_document can_open upload_time_default settings file current_user
               db files).1.2)
     ∨ ∃ db_document,
         crud.documents
             (main.create_document can_open upload_time_default settings file current_user
                db files).1.2 = crud.documents db ++ [db_document]
         ∧ models.doc_id db_document = crud.documents_seq db + 1
         ∧ crud.documents_seq
               (main.create_document can_open upload_time_default settings file current_user
                  db files).1.2 = crud.documents_seq db + 1).
Proof.
  unfold main.create_document, crud.create_document.
  destruct (can_open _); simpl; [|split_and!; [done..|left; split; [done|lia]]].
  destruct (main.document_title _); simpl; [|split_and!; [done..|left; split; [done|lia]]].
  case_decide; simpl; split_and!; try done.
  - right. by eexists.
  - left. split; [done|lia].
Qed.

Lemma session_wf_upload settings file current_user db files :
  session_wf db →
  session_wf
    (main.create_document can_open upload_time_default settings file current_user
       db files).1.2.
Proof.
  intros [(Hids & Hnames & Hemails & Hbound) [Hdids Hdbound]].
  destruct (create_document_session settings file current_user db files)
    as (Husers & Hseq & Hdocs).
  split.
  - unfold users_wf. by rewrite Husers, Hseq.
  - unfold documents_wf. destruct Hdocs as [[-> Hle]|(doc & -> & Hid & ->)].
    + split; [done|]. eapply Forall_impl; [exact Hdbound|]. simpl. intros d Hd. lia.
    + split.
      * apply NoDup_fmap_snoc; [done|]. eapply Forall_impl; [exact Hdbound|].
        simpl. intros d Hd. lia.
      * apply Forall_app. split.
        -- eapply Forall_impl; [exact Hdbound|]. simpl. intros d Hd. lia.
        -- apply Forall_singleton. lia.
Qed.

Lemma session_wf_delete_document document_id current_user db :
  session_wf db → session_wf (main.delete_document document_id current_user db).2.
Proof.
  intros Hwf. unfold main.delete_document.
  destruct (crud.get_document db document_id) as [doc|] eqn:Hg; [|done].
  unfold crud.delete_document. rewrite Hg. simpl.
  destruct Hwf as [Hu [Hdids Hdbound]]. split; [done|].
  unfold documents_wf. simpl. split; [by apply NoDup_fmap_filter | by apply Forall_filter_keeps].
Qed.

Lemma session_wf_empty : session_wf crud.empty_session.
Proof.
  unfold session_wf, users_wf, documents_wf. simpl.
  split_and!; by (apply NoDup_nil_2 || apply Forall_nil_2).
Qed.

(** X10: every request keeps the keys of the tables apart.  Starting from
    the empty session, after any sequence of registrations, role updates,
    user deletions, uploads and document deletions, no two users share an
    id, a username or an email, no two documents share an id, and no id
    exceeds the sequence it was drawn from. *)
Theorem session_keys_stay_unique settings requests files :
  session_wf
    (foldl (run_session_request digest can_open upload_time_default settings)
       (crud.empty_session, files) requests).1.
Proof.
  assert (∀ st, session_wf st.1 →
            session_wf (foldl (run_session_request digest can_open upload_time_default settings)
                          st requests).1) as Hrun.
  { induction requests as [|r requests IH]; intros st Hwf; simpl; [done|].
    apply IH. destruct r as [[salt user|user_id role_update cu|user_id cu]|file cu|doc_id cu];
      simpl.
    - by apply session_wf_register.
    - by apply session_wf_update_role.
    - by apply session_wf_delete_user.
    - by apply session_wf_upload.
    - by apply session_wf_delete_document. }
  apply Hrun, session_wf_empty.
Qed.

(** X9: deleting a user frees its username and its email.  When the keys of
    the users table are unique, an administrator's deletion of an existing
    user is followed by a successful registration under the very same
    username and email, and the other users are still found by their ids. *)
Theorem delete_user_frees_name salt password role user_id current_user db db_user :
  users_wf db →
  schemas.role current_user = "admin" →
  crud.get_user db user_id = Some db_user →
  (∃ again db',
     main.create_user digest salt
         (schemas.mkUserCreate (models.username db_user) (models.email db_user) password role)
         (main.delete_user user_id current_user db).2 = (Ok again, db')
     ∧ models.username again = models.username db_user
     ∧ models.email again = models.email db_user)
  ∧ (∀ other, other ≠ user_id →
       crud.get_user (main.delete_user user_id current_user db).2 other =
         crud.get_user db other).
Proof.
  intros (Hids & Hnames & Hemails & _) Hadmin Hg.
  unfold main.delete_user.
  destruct (decide (schemas.role current_user ≠ "admin")) as [Hno|_]; [by destruct Hno|].
  unfold crud.delete_user. rewrite Hg. simpl.
  apply first_filter_Some in Hg as [Hin Hid]. split.
  - edestruct (create_user_fresh digest salt
                 (schemas.mkUserCreate (models.username db_user) (models.email db_user)
                    password role)) as (again & -> & Hn & He & _).
    + simpl. intros u [Hne Hu]%list_elem_of_filter. split; intros Heq; apply Hne.
      * by rewrite (NoDup_fmap_elem_inj models.username _ u db_user Hnames Hu Hin Heq).
      * by rewrite (NoDup_fmap_elem_inj models.email _ u db_user Hemails Hu Hin Heq).
    + by eexists _, _.
  - intros other Hne. unfold crud.get_user. simpl.
    apply (first_filter_filter_other (λ u, models.id u = other)). congruence.
Qed.

End session_keys.

Lemma delete_user_frees_name_witness :
  ∃ again db',
    main.create_user sample.digest "cl"
        (schemas.mkUserCreate "bob" "bob@example.com" "again" None)
        (main.delete_user 1 sample.root sample.one_user).2 = (Ok again, db')
    ∧ models.username again = "bob"
    ∧ models.email again = "bob@example.com".
Proof.
  apply (proj1 (delete_user_frees_name sample.digest "cl" "again" None 1 sample.root
                  sample.one_user sample.bob_row
                  ltac:(unfold users_wf; simpl; split_and!; try apply NoDup_singleton;
                        apply Forall_singleton; simpl; lia)
                  eq_refl eq_refl)).
Defined.

(** ** Listings *)

Section listings.

Implicit Types (db : crud.Session) (current_user : schemas.User) (skip limit : Z).

Lemma offset_limit_pages {A : Type} (rows : list A) skip n m :
  0 ≤ skip → 0 ≤ n → 0 ≤ m →
  ∃ first_page second_page,
    crud.offset_limit skip n rows = Some first_page
    ∧ crud.offset_limit (skip + n) m rows = Some second_page
    ∧ crud.offset_limit skip (n + m) rows = Some (first_page ++ second_page)
    ∧ (Z.of_nat (length first_page) ≤ n)
    ∧ (∀ x, x ∈ first_page → x ∈ rows).
Proof.
  intros Hs Hn Hm. unfold crud.offset_limit.
  rewrite !decide_False by lia. eexists _, _. split_and!; try reflexivity.
  - f_equal. rewrite !Z2Nat.inj_add by lia.
    rewrite <- drop_drop. by rewrite take_take_drop.
  - rewrite length_take. lia.
  - intros x Hx. by apply (subseteq_drop (Z.to_nat skip) rows), (subseteq_take (Z.to_nat n)).
Qed.

(** X11: the user listing is for administrators only and is paged.  A
    caller whose role is not [admin] gets Forbidden whatever the paging
    arguments; for an administrator and arguments that are not negative, a
    page holds at most [limit] users, all of them stored, and two
    consecutive pages are together the page of their joint size. *)
Theorem read_users_paging skip n m current_user db :
  (schemas.role current_user ≠ "admin" →
     main.read_users skip n current_user db =
       Raise (main.Forbidden "Not authorized to access user list"))
  ∧ (schemas.role current_user = "admin" → 0 ≤ skip → 0 ≤ n → 0 ≤ m →
     ∃ first_page second_page,
       main.read_users skip n current_user db = Ok first_page
       ∧ main.read_users (skip + n) m current_user db = Ok second_page
       ∧ main.read_users skip (n + m) current_user db = Ok (first_page ++ second_page)
       ∧ Z.of_nat (length first_page) ≤ n
       ∧ (∀ u, u ∈ first_page → u ∈ crud.users db)).
Proof.
  unfold main.read_users, crud.get_users. split.
  - intros Hrole. by rewrite decide_True.
  - intros Hrole Hs Hn Hm.
    destruct (decide (schemas.role current_user ≠ "admin")) as [Hno|_]; [by destruct Hno|].
    destruct (offset_limit_pages (crud.users db) skip n m Hs Hn Hm)
      as (p1 & p2 & -> & -> & -> & Hlen & Hsub).
    by eexists _, _.
Qed.

Lemma read_users_paging_witness :
  main.read_users (-5) 100 sample.alice sample.one_user =
    Raise (main.Forbidden "Not authorized to access user list")
  ∧ ∃ first_page second_page,
      main.read_users 0 1 sample.root sample.one_user = Ok first_page
      ∧ main.read_users (0 + 1) 99 sample.root sample.one_user = Ok second_page
      ∧ main.read_users 0 (1 + 99) sample.root sample.one_user =
          Ok (first_page ++ second_page).
Proof.
  split.
  - apply (proj1 (read_users_paging (-5) 100 0 sample.alice sample.one_user)). discriminate.
  - destruct (proj2 (read_users_paging 0 1 99 sample.root sample.one_user) eq_refl)
      as (p1 & p2 & H1 & H2 & H3 & _); [lia..|].
    by exists p1, p2.
Defined.

(** X12: the document listing is open to every user and is paged in the
    same way: for arguments that are not negative and any two users, a page
    holds at most [limit] documents, all of them stored, two consecutive
    pages are together the page of their joint size, and both users see the
    same pages. *)
Theorem read_documents_paging skip n m current_user other_user db :
  0 ≤ skip → 0 ≤ n → 0 ≤ m →
  ∃ first_page second_page,
    main.read_documents skip n current_user db = Ok first_page
    ∧ main.read_documents (skip + n) m other_user db = Ok second_page
    ∧ main.read_documents skip (n + m) current_user db = Ok (first_page ++ second_page)
    ∧ Z.of_nat (length first_page) ≤ n
    ∧ (∀ d, d ∈ first_page → d ∈ crud.documents db).
Proof.
  intros Hs Hn Hm. unfold main.read_documents, crud.get_documents.
  destruct (offset_limit_pages (crud.documents db) skip n m Hs Hn Hm)
    as (p1 & p2 & -> & -> & -> & Hlen & Hsub).
  by eexists _, _.
Qed.

Lemma read_documents_paging_witness :
  ∃ first_page second_page,
    main.read_documents 0 1 sample.alice sample.one_document = Ok first_page
    ∧ main.read_documents (0 + 1) 99 sample.root sample.one_document = Ok second_page
    ∧ main.read_documents 0 (1 + 99) sample.alice sample.one_document =
        Ok (first_page ++ second_page).
Proof.
  destruct (read_documents_paging 0 1 99 sample.alice sample.root sample.one_document)
    as (p1 & p2 & H1 & H2 & H3 & _); [lia..|].
  by exists p1, p2.
Defined.

End listings.

(** ** Documents, continued *)

Section documents_more.

Variable can_open : string → bool.
Variable upload_time_default : Z.

Implicit Types (db : crud.Session) (current_user : schemas.User) (document_id : Z).
Implicit Types (files : gmap string string) (tasks : gmap Z schemas.IngestionTask).

Lemma get_document_after_upload settings file current_user db files :
  documents_wf db →
  can_open (py.os_path_join (config.documents_upload_path settings) (main.uf_filename file)) =
    true →
  is_Some (crud.get_user db (schemas.id current_user)) →
  ∃ db_document db' files',
    main.create_document can_open upload_time_default settings file current_user db files =
      (Ok db_document, db', files')
    ∧ crud.users db' = crud.users db
    ∧ models.doc_id db_document = crud.documents_seq db + 1
    ∧ models.filename db_document = main.uf_filename file
    ∧ files' = <[py.os_path_join (config.documents_upload_path settings)
                   (main.uf_filename file) := main.uf_file file]> files
    ∧ documents_wf db'
    ∧ crud.get_document db' (models.doc_id db_document) = Some db_document
    ∧ (∀ other, other ≠ models.doc_id db_document →
         crud.get_document db' other = crud.get_document db other).
Proof.
  intros [Hids Hbound] Hopen Hrow.
  destruct (create_document_inv can_open upload_time_default settings file current_user db files
              Hopen Hrow) as (doc & Hc & Hid & Hname & _).
  eexists _, _, _. split; [exact Hc|]. split_and!; try done.
  - unfold documents_wf. simpl. split.
    + apply NoDup_fmap_snoc; [done|]. eapply Forall_impl; [exact Hbound|].
      simpl. intros d Hd. lia.
    + apply Forall_app. split.
      * eapply Forall_impl; [exact Hbound|]. simpl. intros d Hd. lia.
      * apply Forall_singleton. lia.
  - unfold crud.get_document. simpl.
    apply (first_filter_snoc_fresh (λ d, models.doc_id d = models.doc_id doc)); [|done].
    eapply Forall_impl; [exact Hbound|]. simpl. intros d Hd. lia.
  - intros other Hne. unfold crud.get_document. simpl.
    apply (first_filter_snoc_other (λ d, models.doc_id d = other)). congruence.
Qed.

(** X13: an upload that is served can be read back.  When the stored
    document ids are unique and drawn from the sequence, the file can be
    opened for writing at its place under the upload directory and the
    current user has a user row, the upload returns a document; any user then
    reads that document under its id, its download answers with the path the
    bytes were written to, that path holds the uploaded bytes, and documents
    stored before are read as before. *)
Theorem upload_then_read_and_download settings file current_user reader db files :
  documents_wf db →
  can_open (py.os_path_join (config.documents_upload_path settings) (main.uf_filename file)) =
    true →
  is_Some (crud.get_user db (schemas.id current_user)) →
  ∃ db_document db' files',
    main.create_document can_open upload_time_default settings file current_user db files =
      (Ok db_document, db', files')
    ∧ main.read_document (models.doc_id db_document) reader db' = Ok db_document
    ∧ main.download_document settings (models.doc_id db_document) reader db' files' =
        Ok {| main.fr_path :=
                py.os_path_join (config.documents_upload_path settings) (main.uf_filename file);
              main.fr_filename := main.uf_filename file |}
    ∧ files' !! py.os_path_join (config.documents_upload_path settings) (main.uf_filename file) =
        Some (main.uf_file file)
    ∧ (∀ other, other ≠ models.doc_id db_document →
         main.read_document other reader db' = main.read_document other reader db).
Proof.
  intros Hwf Hopen Hrow.
  destruct (get_document_after_upload settings file current_user db files Hwf Hopen Hrow)
    as (doc & db' & files' & Hc & _ & _ & Hname & -> & _ & Hget & Hother).
  eexists doc, db', _. split; [exact Hc|].
  unfold main.read_document, main.download_document. rewrite Hget, Hname.
  rewrite decide_True by (rewrite lookup_insert_eq; eauto).
  split_and!; try done; [apply lookup_insert_eq|].
  intros other Hne. by rewrite Hother.
Qed.

(** X14: uploads do not detect name collisions.  When the file can be
    opened for writing at its place under the upload directory and both
    uploaders have user rows, two uploads under one filename give two
    document rows with different ids, both readable, but one stored file: it
    holds the bytes of the second upload, and the download of either document
    answers with its path. *)
Theorem upload_same_filename_overwrites settings file1 file2 user1 user2 reader db files :
  documents_wf db →
  main.uf_filename file2 = main.uf_filename file1 →
  can_open (py.os_path_join (config.documents_upload_path settings) (main.uf_filename file1)) =
    true →
  is_Some (crud.get_user db (schemas.id user1)) →
  is_Some (crud.get_user db (schemas.id user2)) →
  ∃ doc1 db1 files1 doc2 db2 files2,
    main.create_document can_open upload_time_default settings file1 user1 db files =
      (Ok doc1, db1, files1)
    ∧ main.create_document can_open upload_time_default settings file2 user2 db1 files1 =
        (Ok doc2, db2, files2)
    ∧ models.doc_id doc1 ≠ models.doc_id doc2
    ∧ main.read_document (models.doc_id doc1) reader db2 = Ok doc1
    ∧ main.read_document (models.doc_id doc2) reader db2 = Ok doc2
    ∧ files2 = <[py.os_path_join (config.documents_upload_path settings)
                   (main.uf_filename file1) := main.uf_file file2]> files
    ∧ main.download_document settings (models.doc_id doc1) reader db2 files2 =
        main.download_document settings (models.doc_id doc2) reader db2 files2
    ∧ ∃ response,
        main.download_document settings (models.doc_id doc1) reader db2 files2 = Ok response
        ∧ files2 !! main.fr_path response = Some (main.uf_file file2).
Proof.
  intros Hwf Hsame Hopen Hrow1 Hrow2.
  destruct (get_document_after_upload settings file1 user1 db files Hwf Hopen Hrow1)
    as (doc1 & db1 & files1 & Hc1 & Husers1 & Hid1 & Hname1 & -> & Hwf1 & Hget1 & _).
  assert (is_Some (crud.get_user db1 (schemas.id user2))) as Hrow2'.
  { unfold crud.get_user in *. by rewrite Husers1. }
  assert (can_open (py.os_path_join (config.documents_upload_path settings)
                      (main.uf_filename file2)) = true) as Hopen2 by by rewrite Hsame.
  destruct (get_document_after_upload settings file2 user2 db1
              (<[py.os_path_join (config.documents_upload_path settings)
                   (main.uf_filename file1) := main.uf_file file1]> files) Hwf1 Hopen2 Hrow2')
    as (doc2 & db2 & files2 & Hc2 & _ & Hid2 & Hname2 & -> & _ & Hget2 & Hother2).
  assert (crud.documents_seq db1 = crud.documents_seq db + 1) as Hseq.
  { destruct (create_document_inv can_open upload_time_default settings file1 user1 db files
                Hopen Hrow1) as (d & Hd & _). rewrite Hd in Hc1. by injection Hc1 as _ <-. }
  assert (models.doc_id doc1 ≠ models.doc_id doc2) as Hne by lia.
  eexists doc1, db1, _, doc2, db2, _. split; [exact Hc1|]. split; [exact Hc2|].
  unfold main.read_document, main.download_document.
  rewrite Hget2, (Hother2 _ Hne), Hget1, Hname1, Hname2, Hsame, insert_insert_eq.
  rewrite decide_True by (rewrite lookup_insert_eq; eauto).
  split_and!; try done.
  eexists. split; [reflexivity|]. simpl. apply lookup_insert_eq.
Qed.

(** X15: a deleted document is gone for every later request.  After a
    deletion request for an id, whoever made it and whether or not the id
    existed, reading, downloading, deleting again and triggering ingestion
    for that id all fail with "Document not found", and the failed requests
    change neither the session nor the ingestion mapping. *)
Theorem delete_document_then_not_found settings document_id current_user later_user
    db files bg tasks :
  main.read_document document_id later_user (main.delete_document document_id current_user db).2 =
    Raise (main.NotFound "Document not found")
  ∧ main.download_document settings document_id later_user
        (main.delete_document document_id current_user db).2 files =
      Raise (main.NotFound "Document not found")
  ∧ main.delete_document document_id later_user
        (main.delete_document document_id current_user db).2 =
      (Raise (main.NotFound "Document not found"),
       (main.delete_document document_id current_user db).2)
  ∧ main.trigger_ingestion document_id bg later_user
        (main.delete_document document_id current_user db).2 tasks =
      (Raise (main.NotFound "Document not found"), bg, tasks).
Proof.
  assert (crud.get_document (main.delete_document document_id current_user db).2 document_id
          = None) as Hgone.
  { unfold main.delete_document.
    destruct (crud.get_document db document_id) as [doc|] eqn:Hg; [|done].
    pose proof (get_document_after_delete db document_id) as Hdel.
    unfold crud.delete_document in *. by rewrite Hg in *. }
  unfold main.read_document, main.download_document, main.trigger_ingestion.
  unfold main.delete_document at 3. by rewrite !Hgone.
Qed.

(** X16: the title an upload records never contains a "." and is a prefix
    of the filename; a title is its own title. *)
Theorem document_title_dot_free_prefix filename :
  ∃ title,
    main.document_title filename = Some title
    ∧ py.contains "." title = false
    ∧ (∃ rest, filename = title +:+ rest)
    ∧ main.document_title title = Some title.
Proof.
  destruct (py.contains "." filename) eqn:Hdot.
  - apply contains_first in Hdot as (stem & rest & -> & Hstem).
    exists stem. split_and!; [by apply document_title_stem|done|by eexists|].
    by apply document_title_no_dot.
  - exists filename. split_and!; try by apply document_title_no_dot.
    + done.
    + exists EmptyString. clear Hdot.
      induction filename as [|a s IH]; [done|].
      change (String a s = String a (s +:+ EmptyString)). by f_equal.
Qed.

(** X17: upload, trigger, run.  When the stored document ids are unique and
    drawn from the sequence, the mapping has entries only for ids already
    drawn, the file can be opened for writing at its place under the upload
    directory and the current user has a user row, the upload returns a
    document, triggering ingestion for it succeeds, the status listing then
    shows the document as [pending], and once the background body has run it
    shows it as [completed] with the success message. *)
Theorem upload_trigger_run settings file current_user db files bg tasks :
  documents_wf db →
  (∀ d, is_Some (tasks !! d) → d ≤ crud.documents_seq db) →
  can_open (py.os_path_join (config.documents_upload_path settings) (main.uf_filename file)) =
    true →
  is_Some (crud.get_user db (schemas.id current_user)) →
  ∃ db_document db' files' h,
    main.create_document can_open upload_time_default settings file current_user db files =
      (Ok db_document, db', files')
    ∧ main.trigger_ingestion (models.doc_id db_document) bg current_user db' tasks =
        (Ok (pending_task (models.doc_id db_document)), bg ++ [models.doc_id db_document],
         <[models.doc_id db_document := pending_task (models.doc_id db_document)]> tasks)
    ∧ main.get_ingestion_status current_user
          (<[models.doc_id db_document := pending_task (models.doc_id db_document)]> tasks)
        !! models.doc_id db_document = Some (pending_task (models.doc_id db_document))
    ∧ main.process_ingestion_task (models.doc_id db_document)
          (<[models.doc_id db_document := pending_task (models.doc_id db_document)]> tasks) =
        Some h
    ∧ main.get_ingestion_status current_user
          (main.final
             (<[models.doc_id db_document := pending_task (models.doc_id db_document)]> tasks) h)
        !! models.doc_id db_document =
        Some (completed_task (pending_task (models.doc_id db_document))).
Proof.
  intros Hwf Htasks Hopen Hrow.
  destruct (get_document_after_upload settings file current_user db files Hwf Hopen Hrow)
    as (doc & db' & files' & Hc & _ & Hid & _ & _ & _ & Hget & _).
  assert (tasks !! models.doc_id doc = None) as Hnone.
  { destruct (tasks !! models.doc_id doc) as [t|] eqn:Hl; [|done].
    assert (models.doc_id doc ≤ crud.documents_seq db) by (apply Htasks; eauto). lia. }
  eexists doc, db', files', _. split; [exact Hc|].
  unfold main.trigger_ingestion, main.get_ingestion_status. rewrite Hget, Hnone.
  split_and!; [done|apply lookup_insert_eq| |].
  - apply process_ingestion_task_present, lookup_insert_eq.
  - unfold main.final. simpl. apply lookup_insert_eq.
Qed.

End documents_more.

Lemma documents_wf_office : documents_wf sample.office.
Proof.
  unfold documents_wf. simpl. split; [apply NoDup_singleton|].
  apply Forall_singleton. simpl. lia.
Qed.

Lemma upload_then_read_and_download_witness :
  ∃ db_document db' files',
    main.create_document sample.can_open 0 config.settings
        (main.mkUploadFile "notes.txt" "hello") sample.alice sample.office ∅ =
      (Ok db_document, db', files')
    ∧ main.read_document (models.doc_id db_document) sample.root db' = Ok db_document
    ∧ main.download_document config.settings (models.doc_id db_document) sample.root db' files' =
        Ok {| main.fr_path := "uploaded_documents/notes.txt";
              main.fr_filename := "notes.txt" |}.
Proof.
  destruct (upload_then_read_and_download sample.can_open 0 config.settings
              (main.mkUploadFile "notes.txt" "hello") sample.alice sample.root
              sample.office ∅ documents_wf_office eq_refl ltac:(by eexists))
    as (doc & db' & files' & Hc & Hread & Hdown & _).
  by exists doc, db', files'.
Defined.

Lemma upload_same_filename_overwrites_witness :
  ∃ doc1 db1 files1 doc2 db2 files2,
    main.create_document sample.can_open 0 config.settings
        (main.mkUploadFile "notes.txt" "first") sample.alice sample.office ∅ =
      (Ok doc1, db1, files1)
    ∧ main.create_document sample.can_open 0 config.settings
          (main.mkUploadFile "notes.txt" "second") sample.root db1 files1 =
        (Ok doc2, db2, files2)
    ∧ models.doc_id doc1 ≠ models.doc_id doc2
    ∧ files2 = <["uploaded_documents/notes.txt" := "second"]> ∅.
Proof.
  destruct (upload_same_filename_overwrites sample.can_open 0 config.settings
              (main.mkUploadFile "notes.txt" "first") (main.mkUploadFile "notes.txt" "second")
              sample.alice sample.root sample.alice sample.office ∅
              documents_wf_office eq_refl eq_refl ltac:(by eexists) ltac:(by eexists))
    as (doc1 & db1 & files1 & doc2 & db2 & files2 & H1 & H2 & Hne & _ & _ & Hfiles & _).
  by exists doc1, db1, files1, doc2, db2, files2.
Defined.

Lemma upload_trigger_run_witness :
  ∃ db_document db' files' h,
    main.create_document sample.can_open 0 config.settings
        (main.mkUploadFile "notes.txt" "hello") sample.alice sample.office ∅ =
      (Ok db_document, db', files')
    ∧ main.process_ingestion_task (models.doc_id db_document)
          (<[models.doc_id db_document := pending_task (models.doc_id db_document)]>
             {[1 := completed_task (pending_task 1)]}) = Some h
    ∧ main.final
          (<[models.doc_id db_document := pending_task (models.doc_id db_document)]>
             {[1 := completed_task (pending_task 1)]}) h
        !! models.doc_id db_document =
        Some (completed_task (pending_task (models.doc_id db_document))).
Proof.
  destruct (upload_trigger_run sample.can_open 0 config.settings
              (main.mkUploadFile "notes.txt" "hello")
              sample.alice sample.office ∅ [] {[1 := completed_task (pending_task 1)]}
              documents_wf_office)
    as (doc & db' & files' & h & Hc & _ & _ & Hrun & Hdone).
  - intros d [t Ht]. apply lookup_singleton_Some in Ht as [<- _]. simpl. lia.
  - reflexivity.
  - by eexists.
  - by exists doc, db', files', h.
Defined.

(** ** Registration and the administrator gate *)

Section registration_gate.

Variable digest : string → string → string.

(** X18: registration does not restrict the requested role.  A request
    under an unused username and email that asks for the role [admin] is
    served, the stored user has that role, and a caller with the role of the
    stored user passes the administrator gate: it may change the role of, and
    delete, any existing user. *)
Theorem register_as_admin salt username email password db :
  (∀ u, u ∈ crud.users db → models.username u ≠ username ∧ models.email u ≠ email) →
  ∃ db_user db',
    main.create_user digest salt
        (schemas.parse_UserCreate username email password (Some (Some "admin"))) db =
      (Ok db_user, db')
    ∧ models.role db_user = "admin"
    ∧ ∀ current_user victim row role_update,
        schemas.role current_user = models.role db_user →
        crud.get_user db' victim = Some row →
        (main.update_user_role victim role_update current_user db').1 =
          Ok (crud.with_role (schemas.ru_role role_update) row)
        ∧ (main.delete_user victim current_user db').1 = Ok row.
Proof.
  intros Hfresh.
  destruct (create_user_fresh digest salt
              (schemas.parse_UserCreate username email password (Some (Some "admin"))) db Hfresh)
    as (db_user & -> & _ & _ & _ & _ & Hrole).
  eexists _, _. split; [reflexivity|]. split; [exact Hrole|].
  intros current_user victim row role_update Hcu Hg.
  unfold main.update_user_role, main.delete_user.
  destruct (decide (schemas.role current_user ≠ "admin")) as [Hno|_];
    [by rewrite Hcu, Hrole in Hno|].
  unfold crud.update_user_role, crud.delete_user. by rewrite Hg.
Qed.

End registration_gate.

Lemma register_as_admin_witness :
  ∃ db_user db',
    main.create_user sample.digest "na"
        (schemas.parse_UserCreate "mallory" "mallory@example.com" "pw" (Some (Some "admin")))
        sample.one_user = (Ok db_user, db')
    ∧ models.role db_user = "admin"
    ∧ (main.delete_user 1 sample.root db').1 = Ok sample.bob_row.
Proof.
  destruct (register_as_admin sample.digest "na" "mallory" "mallory@example.com" "pw"
              sample.one_user) as (db_user & db' & Hc & Hrole & Hgate).
  - intros u Hu. apply list_elem_of_singleton in Hu as ->. split; discriminate.
  - exists db_user, db'. split; [exact Hc|]. split; [exact Hrole|].
    apply (Hgate sample.root 1 sample.bob_row (schemas.mkUserRoleUpdate "viewer")).
    + by rewrite Hrole.
    + pose proof (create_user_ok_inv sample.digest _ _ _ _ _ Hc)
        as (_ & _ & _ & Husers & _).
      unfold crud.get_user. rewrite Husers. reflexivity.
Defined.
